(** * ADGM compliance review: classification, JSON extraction, checklist
      audit and inline annotation

    A shallow embedding of [code.py].  Python text is a sequence of code
    points, the values decoded from the reviewer's JSON are a small tagged
    union, and every operation of the source that can raise returns a
    [result].  What the program takes from its libraries and hosted services
    (Unicode lower-casing, the JSON decoder, the .docx reader and writer, the
    retrieval chain) is an interface; the program's own control flow is
    defined here, function by function. *)

From Stdlib Require Import String Ascii DecimalString.
From Stdlib Require Import ZArith NArith Lia Bool List Permutation.
From Stdlib Require Import Floats.SpecFloat.
Import ListNotations.

Set Implicit Arguments.

(** ** Python text *)

(** A [str] is a sequence of Unicode code points. *)
Definition pystr := list N.

(** The code points of a literal of the source (all of them are ASCII). *)
Definition lit (s : string) : pystr := map N_of_ascii (list_ascii_of_string s).

Definition LBRACE : N := 123.
Definition RBRACE : N := 125.
Definition QUOTE : N := 34.
Definition NEWLINE : N := 10.

(** Literals that hold double quotes are written with single quotes. *)
Definition qlit (s : string) : pystr :=
  map (fun c => if (c =? 39)%N then QUOTE else c) (lit s).

Fixpoint str_eqb (a b : pystr) : bool :=
  match a, b with
  | [], [] => true
  | x :: a', y :: b' => (x =? y)%N && str_eqb a' b'
  | _, _ => false
  end.

(** [x in xs] on a list of strings. *)
Definition str_mem (x : pystr) (xs : list pystr) : bool := existsb (str_eqb x) xs.

Fixpoint startswith (p s : pystr) : bool :=
  match p, s with
  | [], _ => true
  | a :: p', b :: s' => (a =? b)%N && startswith p' s'
  | _ :: _, [] => false
  end.

(** [sub in s]: [sub] starts at some position of [s]. *)
Fixpoint contains (sub s : pystr) : bool :=
  startswith sub s ||
  match s with
  | [] => false
  | _ :: s' => contains sub s'
  end.

(** The property [contains] decides: [sub] occurs somewhere in [s]. *)
Definition occurs (sub s : pystr) : Prop :=
  exists pre post, s = pre ++ sub ++ post.

Definition is_ascii (c : N) : bool := (c <? 128)%N.

Definition lower_ascii (c : N) : N :=
  if (65 <=? c)%N && (c <=? 90)%N then (c + 32)%N else c.

(** ** Outcomes *)

(** A call either returns a value or raises. *)
Inductive result (A : Type) : Type :=
| Ok (a : A)
| Raise.
Arguments Ok {A} a.
Arguments Raise {A}.

Definition bind {A B} (r : result A) (k : A -> result B) : result B :=
  match r with
  | Ok a => k a
  | Raise => Raise
  end.

Notation "x <- r ;; k" := (bind r (fun x => k))
  (at level 61, r at next level, right associativity).

(** A loop whose body may raise: the first raise leaves the loop. *)
Fixpoint for_each {S X} (body : S -> X -> result S) (xs : list X) (s : S) : result S :=
  match xs with
  | [] => Ok s
  | x :: rest => s' <- body s x ;; for_each body rest s'
  end.

(** A list comprehension whose element expression may raise. *)
Fixpoint comprehension {X Y} (f : X -> result Y) (xs : list X) : result (list Y) :=
  match xs with
  | [] => Ok []
  | x :: rest => y <- f x ;; ys <- comprehension f rest ;; Ok (y :: ys)
  end.

(** ** Decoded JSON values *)

(** What [json.loads] builds: [None], [bool], [int], [float], [str], [list]
    and [dict].  A [dict] is kept as its items in insertion order. *)
#[warnings="-register-all"]
Inductive json : Type :=
| JNull
| JBool (b : bool)
| JInt (z : Z)
| JFloat (f : spec_float)
| JStr (s : pystr)
| JArr (items : list json)
| JObj (items : list (pystr * json)).

(** Truth value of an object, as [not], [or] and [if] test it. *)
Definition truthy (v : json) : bool :=
  match v with
  | JNull => false
  | JBool b => b
  | JInt z => negb (z =? 0)%Z
  | JFloat (S754_zero _) => false
  | JFloat _ => true
  | JStr s => negb (length s =? 0)%nat
  | JArr l => negb (length l =? 0)%nat
  | JObj l => negb (length l =? 0)%nat
  end.

Fixpoint assoc {V} (k : pystr) (l : list (pystr * V)) : option V :=
  match l with
  | [] => None
  | (k', v) :: rest => if str_eqb k k' then Some v else assoc k rest
  end.

(** [d.get(key, default)]: only a [dict] has the method. *)
Definition dict_get (d : json) (key : pystr) (default : json) : result json :=
  match d with
  | JObj items =>
      Ok (match assoc key items with Some v => v | None => default end)
  | _ => Raise
  end.

(** [key in d] for a [dict]; nothing else here has fields. *)
Definition has_field (d : json) (key : pystr) : bool :=
  match d with
  | JObj items => match assoc key items with Some _ => true | None => false end
  | _ => false
  end.

(** [for x in v]: a list yields its elements, a string its characters, a
    dict its keys; nothing else is iterable. *)
Definition iterate (v : json) : result (list json) :=
  match v with
  | JArr l => Ok l
  | JStr s => Ok (map (fun c => JStr [c]) s)
  | JObj items => Ok (map (fun kv => JStr (fst kv)) items)
  | _ => Raise
  end.

(** ** What the program takes from the language runtime *)

Class PyLib : Type := {
  (** [str.lower] on text that is not pure ASCII *)
  unicode_lower : pystr -> pystr;
  (** lower-casing never deletes all of a non-empty text *)
  unicode_lower_nonempty : forall s, unicode_lower s = [] -> s = [];
  (** [str.strip] *)
  str_strip : pystr -> pystr;
  (** [json.loads]; [None] when it raises *)
  json_loads : pystr -> option json;
  (** how an f-string renders a value that is not a [str] *)
  format_value : json -> pystr
}.

(** ** Documents *)

Inductive WD_COLOR_INDEX : Type := YELLOW.

(** A run of a paragraph: its text and its highlight, if any. *)
Record run : Type := {
  run_text : pystr;
  highlight_color : option WD_COLOR_INDEX
}.

Definition paragraph := list run.

(** [para.text]: the texts of the runs, joined. *)
Definition para_text (p : paragraph) : pystr := concat (map run_text p).

(** A parsed .docx: the body paragraphs in document order, and the tables
    as rows of cell texts. *)
Record docx : Type := {
  paragraphs : list paragraph;
  tables : list (list (list pystr))
}.

Definition bytes := list Byte.byte.

(** ** The collaborators *)

Class Collaborators : Type := {
  (** [Document(BytesIO(file_bytes))]; raises on a malformed binary *)
  Document : bytes -> result docx;
  (** [doc.save(out)] followed by reading [out] back *)
  docx_save : docx -> bytes;
  (** whether the XML layer under the document takes the character as text;
      it raises on the others, control characters among them *)
  xml_compatible : N -> bool;
  (** the similarity index built from the reference PDFs *)
  vectordb : Type;
  ingest_pdfs_to_faiss : list bytes -> result vectordb;
  (** [qa.run(prompt)] of the chain over the index, at the n-th review of
      the run; it returns free-form text or raises *)
  qa_run : vectordb -> nat -> pystr -> result pystr
}.

Section Core.
Context {L : PyLib} {C : Collaborators}.

(** [s.lower()]: on pure ASCII text only 'A'..'Z' change. *)
Definition lower (s : pystr) : pystr :=
  if forallb is_ascii s then map lower_ascii s else unicode_lower s.

(** lines 20-28 *)
Definition ADGM_CHECKLISTS : list (pystr * list pystr) :=
  [ (lit "Company Incorporation",
     [ lit "Articles of Association";
       lit "Memorandum of Association";
       lit "Incorporation Application Form";
       lit "UBO Declaration Form";
       lit "Register of Members and Directors" ]) ].

(** lines 30-36; [items()] walks the table in this order *)
Definition DOC_TYPE_KEYWORDS : list (pystr * list pystr) :=
  [ (lit "Articles of Association",
     [lit "articles of association"; lit "aoa"; lit "articles"]);
    (lit "Memorandum of Association",
     [lit "memorandum of association"; lit "moa"; lit "memorandum"]);
    (lit "Incorporation Application Form", [lit "incorporation application"]);
    (lit "UBO Declaration Form", [lit "ubo declaration"]);
    (lit "Register of Members and Directors",
     [lit "register of members"; lit "register of directors"]) ].

Definition UNKNOWN : pystr := lit "Unknown Document Type".

(** The [for doc_type, keys in ...] loop of [classify_document]. *)
Fixpoint classify_loop (text_l : pystr) (table : list (pystr * list pystr)) : pystr :=
  match table with
  | [] => UNKNOWN
  | (doc_type, keys) :: rest =>
      if existsb (fun k => contains k text_l) keys then doc_type
      else classify_loop text_l rest
  end.

(** lines 49-54; the argument may be [None] *)
Definition classify_document (text : option pystr) : pystr :=
  let text_l := lower (match text with Some ((_ :: _) as s) => s | _ => [] end) in
  classify_loop text_l DOC_TYPE_KEYWORDS.

(** [text.find(c)]: the first index of [c], -1 when there is none. *)
Fixpoint find (c : N) (text : pystr) : Z :=
  match text with
  | [] => -1
  | x :: rest =>
      if (x =? c)%N then 0
      else let r := find c rest in if (r =? -1)%Z then -1 else r + 1
  end%Z.

(** [text[i]] for [i >= 0]: out of range raises. *)
Definition getitem (text : pystr) (i : nat) : result N :=
  match nth_error text i with
  | Some c => Ok c
  | None => Raise
  end.

(** [text[a:b]] for [0 <= a]. *)
Definition slice (text : pystr) (a b : nat) : pystr := firstn (b - a) (skipn a text).

Definition EMPTY_DICT : json := JObj [].

(** The [for i in range(start, len(text))] loop of [_extract_json_from_text];
    [idxs] is what is left of the range. *)
Fixpoint scan_braces (text : pystr) (start : nat) (idxs : list nat) (depth : Z)
  : result json :=
  match idxs with
  | [] => Ok EMPTY_DICT
  | i :: rest =>
      c <- getitem text i ;;
      if (c =? LBRACE)%N then scan_braces text start rest (depth + 1)
      else if (c =? RBRACE)%N then
        let depth := (depth - 1)%Z in
        if (depth =? 0)%Z then
          match json_loads (slice text start (i + 1)) with
          | Some v => Ok v
          | None => Ok EMPTY_DICT
          end
        else scan_braces text start rest depth
      else scan_braces text start rest depth
  end.

(** lines 74-87 *)
Definition _extract_json_from_text (text : pystr) : result json :=
  let start := find LBRACE text in
  if (start =? -1)%Z then Ok EMPTY_DICT
  else
    let start := Z.to_nat start in
    scan_braces text start (seq start (length text - start)) 0.

(** The prompt of lines 98-102. *)
Definition review_prompt (doc_name doc_text : pystr) : pystr :=
  lit "Review the document for ADGM compliance issues." ++ [NEWLINE] ++
  lit "Output JSON only with fields: document, issues:[{section, issue, severity, suggestion}]."
    ++ [NEWLINE] ++
  lit "Document name: " ++ doc_name ++ [NEWLINE; NEWLINE] ++
  lit "Content:" ++ [NEWLINE] ++ doc_text.

(** The mapping of line 106. *)
Definition synthesized (doc_name : pystr) : json :=
  JObj [ (lit "document", JStr doc_name); (lit "issues", JArr []) ].

(** lines 89-107; [qa] is the retrieval chain of line 97, a call of which
    is [qa.run] *)
Definition run_rag_review (qa : pystr -> result pystr) (doc_name doc_text : pystr)
  : result json :=
  resp <- qa (review_prompt doc_name doc_text) ;;
  parsed <- _extract_json_from_text resp ;;
  if negb (truthy parsed) then Ok (synthesized doc_name) else Ok parsed.

(** lines 172 and 177: the required labels that were not detected, and the
    first of them *)
Definition missing (required_docs detected_types : list pystr) : list pystr :=
  filter (fun d => negb (str_mem d detected_types)) required_docs.

Definition missing_document_of (required_docs detected_types : list pystr)
  : option pystr :=
  match missing required_docs detected_types with
  | d :: _ => Some d
  | [] => None
  end.

(** *** Text extraction *)

Definition nonempty (s : pystr) : bool := negb (length s =? 0)%nat.

Fixpoint join (sep : pystr) (parts : list pystr) : pystr :=
  match parts with
  | [] => []
  | [p] => p
  | p :: rest => p ++ sep ++ join sep rest
  end.

(** The stripped texts that are not empty. *)
Definition stripped_parts (texts : list pystr) : list pystr :=
  map str_strip (filter (fun t => nonempty (str_strip t)) texts).

(** lines 39-47 *)
Definition extract_text_from_docx_bytes (file_bytes : bytes) : result pystr :=
  doc <- Document file_bytes ;;
  let parts := stripped_parts (map para_text (paragraphs doc)) in
  let cells := concat (map (fun table => concat table) (tables doc)) in
  Ok (join [NEWLINE] (parts ++ stripped_parts cells)).

(** *** Annotation *)

(** [x or ""] *)
Definition or_empty (v : json) : json := if truthy v then v else JStr [].

(** [v.lower()]: a method of [str] only. *)
Definition lower_method (v : json) : result pystr :=
  match v with
  | JStr s => Ok (lower s)
  | _ => Raise
  end.

(** [v[:50]]: strings and lists can be sliced. *)
Definition first_50 (v : json) : result json :=
  match v with
  | JStr s => Ok (JStr (firstn 50 s))
  | JArr l => Ok (JArr (firstn 50 l))
  | _ => Raise
  end.

(** A value inside an f-string. *)
Definition format (v : json) : pystr :=
  match v with
  | JStr s => s
  | _ => format_value v
  end.

(** lines 113-114 *)
Definition issue_snippet (issue : json) : result pystr :=
  sec <- dict_get issue (lit "section") JNull ;;
  section <- lower_method (or_empty sec) ;;
  match section with
  | _ :: _ => Ok section
  | [] =>
      iss <- dict_get issue (lit "issue") (JStr []) ;;
      cut <- first_50 iss ;;
      lower_method cut
  end.

(** The f-string of line 115 around the text of a suggestion. *)
Definition remark (suggestion : pystr) : pystr :=
  lit "[Suggestion: " ++ suggestion ++ lit "]".

(** line 115 *)
Definition issue_comment (issue : json) : result pystr :=
  sug <- dict_get issue (lit "suggestion") (JStr []) ;;
  Ok (remark (format sug)).

Definition highlighted (text : pystr) : run :=
  {| run_text := text; highlight_color := Some YELLOW |}.

(** A character that can go into the text of a run: a tab, a line feed and
    a carriage return become elements of their own, the others go to the
    XML layer. *)
Definition insertable (c : N) : bool :=
  ((c =? 9) || (c =? 10) || (c =? 13))%N || xml_compatible c.

(** The character as the text of the run gives it back: a carriage return
    was stored as a line break. *)
Definition stored_char (c : N) : N := if (c =? 13)%N then 10%N else c.

(** What the text of a run reads once [text] was put into it; putting a
    character that is not insertable raises. *)
Definition set_text (text : pystr) : result pystr :=
  if forallb insertable text then Ok (map stored_char text) else Raise.

(** lines 119-120: a highlighted run at the end of the paragraph *)
Definition add_run (para : paragraph) (text : pystr) : result paragraph :=
  stored <- set_text text ;;
  Ok (para ++ [highlighted stored]).

(** lines 124-125: a new last paragraph of one highlighted run; the text is
    never empty here *)
Definition add_paragraph (doc : docx) (text : pystr) : result docx :=
  stored <- set_text text ;;
  Ok {| paragraphs := paragraphs doc ++ [[highlighted stored]];
        tables := tables doc |}.

(** lines 117-122: the scan of the paragraphs, with the [found] flag *)
Fixpoint mark_first (snippet comment : pystr) (paras : list paragraph)
  : result (list paragraph * bool) :=
  match paras with
  | [] => Ok ([], false)
  | para :: rest =>
      if nonempty snippet && contains snippet (lower (para_text para))
      then
        para' <- add_run para (lit " " ++ comment) ;;
        Ok (para' :: rest, true)
      else
        r <- mark_first snippet comment rest ;;
        Ok (para :: fst r, snd r)
  end.

(** lines 113-125: the body of the loop over the issues *)
Definition place_issue (doc : docx) (issue : json) : result docx :=
  snippet <- issue_snippet issue ;;
  comment <- issue_comment issue ;;
  r <- mark_first snippet comment (paragraphs doc) ;;
  if snd r then Ok {| paragraphs := fst r; tables := tables doc |}
  else add_paragraph {| paragraphs := fst r; tables := tables doc |} comment.

(** lines 111-112 and line 167: what a [for] over
    [review.get("issues", [])] walks *)
Definition review_issues (review_json : json) : result (list json) :=
  issues <- dict_get review_json (lit "issues") (JArr []) ;;
  iterate issues.

(** lines 111-125: the document as it is when it is saved *)
Definition annotate_document (doc : docx) (json_review : json) : result docx :=
  items <- review_issues json_review ;;
  for_each place_issue items doc.

(** lines 109-129 *)
Definition annotate_docx_inline (file_bytes : bytes) (json_review : json)
  : result bytes :=
  doc <- Document file_bytes ;;
  doc' <- annotate_document doc json_review ;;
  Ok (docx_save doc').

(** *** The run *)

Record upload : Type := {
  name : pystr;
  content : bytes
}.

(** lines 173-179 *)
Record report : Type := {
  process : pystr;
  documents_uploaded : nat;
  required_documents : nat;
  missing_document : option pystr;
  issues_found : list json
}.

Record results : Type := {
  output_json : report;
  results_reviewed_files : list (pystr * bytes)
}.

(** lines 150-152: the three accumulators of the loop *)
Record run_state : Type := {
  detected_types : list pystr;
  all_issues : list json;
  reviewed_files : list (pystr * bytes)
}.

(** lines 161-167: one entry of [all_issues] *)
Definition report_issue (doc_type : pystr) (i : json) : result json :=
  section <- dict_get i (lit "section") (JStr []) ;;
  issue <- dict_get i (lit "issue") (JStr []) ;;
  severity <- dict_get i (lit "severity") (JStr []) ;;
  suggestion <- dict_get i (lit "suggestion") (JStr []) ;;
  Ok (JObj [ (lit "document", JStr doc_type);
             (lit "section", section);
             (lit "issue", issue);
             (lit "severity", severity);
             (lit "suggestion", suggestion) ]).

(** lines 155-170: the body of the loop over the uploads; [k] counts them *)
Definition review_one (db : vectordb) (st : run_state) (kd : nat * upload)
  : result run_state :=
  let (k, docx_file) := kd in
  let raw := content docx_file in
  text <- extract_text_from_docx_bytes raw ;;
  let doc_type := classify_document (Some text) in
  review_json <- run_rag_review (qa_run db k) doc_type text ;;
  items <- review_issues review_json ;;
  tagged <- comprehension (report_issue doc_type) items ;;
  reviewed_bytes <- annotate_docx_inline raw review_json ;;
  Ok {| detected_types := detected_types st ++ [doc_type];
        all_issues := all_issues st ++ tagged;
        reviewed_files := reviewed_files st ++ [(name docx_file, reviewed_bytes)] |}.

Definition PROCESS : pystr := lit "Company Incorporation".

(** lines 141-184: what a press of the button computes; [None] when the
    uploads are incomplete and nothing is run *)
Definition run_review (pdf_files docx_files : list upload) : result (option results) :=
  if (length pdf_files =? 0)%nat || (length docx_files =? 0)%nat then Ok None
  else
    db <- ingest_pdfs_to_faiss (map content pdf_files) ;;
    required_docs <- match assoc PROCESS ADGM_CHECKLISTS with
                     | Some l => Ok l
                     | None => Raise
                     end ;;
    st <- for_each (review_one db)
            (combine (seq 0 (length docx_files)) docx_files)
            {| detected_types := []; all_issues := []; reviewed_files := [] |} ;;
    Ok (Some {| output_json :=
                  {| process := PROCESS;
                     documents_uploaded := length docx_files;
                     required_documents := length required_docs;
                     missing_document :=
                       missing_document_of required_docs (detected_types st);
                     issues_found := all_issues st |};
                results_reviewed_files := reviewed_files st |}).

End Core.

(** ** A reference runtime

    One concrete runtime and one concrete set of collaborators, on which the
    program can be run on concrete inputs.  The decoder follows [json.loads]
    on JSON text whose numbers are integers and whose strings have no
    [\u] escape; it rejects what lies outside that fragment.  The lower-casing
    and the stripping are those of ASCII text.  The document codec is a
    plain-text stand-in: one paragraph per line. *)
Module Reference.

Definition is_ws (c : N) : bool :=
  ((c =? 32) || (c =? 9) || (c =? 10) || (c =? 13))%N.

Fixpoint skip_ws (s : pystr) : pystr :=
  match s with
  | c :: r => if is_ws c then skip_ws r else s
  | [] => []
  end.

(** The character an escape stands for. *)
Definition unescape (e : N) : option N :=
  (if e =? 34 then Some 34 else if e =? 92 then Some 92
   else if e =? 47 then Some 47 else if e =? 98 then Some 8
   else if e =? 102 then Some 12 else if e =? 110 then Some 10
   else if e =? 114 then Some 13 else if e =? 116 then Some 9
   else None)%N.

(** A string, from after its opening quote to its closing quote. *)
Fixpoint scan_string (s acc : pystr) : option (pystr * pystr) :=
  match s with
  | [] => None
  | c :: r =>
      if (c =? QUOTE)%N then Some (rev acc, r)
      else if (c =? 92)%N then
        match r with
        | e :: r' =>
            match unescape e with
            | Some x => scan_string r' (x :: acc)
            | None => None
            end
        | [] => None
        end
      else if (c <? 32)%N then None
      else scan_string r (c :: acc)
  end.

Definition is_digit (c : N) : bool := ((48 <=? c) && (c <=? 57))%N.

Fixpoint take_digits (s : pystr) (acc : Z) : Z * pystr :=
  match s with
  | c :: r =>
      if is_digit c then take_digits r (10 * acc + Z.of_N (c - 48))%Z
      else (acc, s)
  | [] => (acc, [])
  end.

(** An integer; a fraction or an exponent after it is outside the fragment. *)
Definition scan_number (s : pystr) : option (json * pystr) :=
  let (negative, s1) :=
    match s with
    | c :: r => if (c =? 45)%N then (true, r) else (false, s)
    | [] => (false, s)
    end in
  let finish (z : Z) (r : pystr) :=
    match r with
    | c :: _ =>
        if ((c =? 46) || (c =? 101) || (c =? 69))%N then None
        else Some (JInt (if negative then - z else z), r)
    | [] => Some (JInt (if negative then - z else z), r)
    end in
  match s1 with
  | d :: r =>
      if (d =? 48)%N then finish 0%Z r
      else if is_digit d then let (z, r') := take_digits s1 0 in finish z r'
      else None
  | [] => None
  end.

(** A later pair with the same key replaces the value of the earlier one. *)
Fixpoint dict_set (items : list (pystr * json)) (k : pystr) (v : json)
  : list (pystr * json) :=
  match items with
  | [] => [(k, v)]
  | (k', v') :: rest =>
      if str_eqb k k' then (k, v) :: rest else (k', v') :: dict_set rest k v
  end.

Fixpoint scan_value (fuel : nat) (s : pystr) : option (json * pystr) :=
  match fuel with
  | O => None
  | S f =>
      match s with
      | [] => None
      | c :: r =>
          if (c =? QUOTE)%N then
            match scan_string r [] with
            | Some (str, r') => Some (JStr str, r')
            | None => None
            end
          else if (c =? LBRACE)%N then
            match skip_ws r with
            | [] => None
            | c1 :: r2 =>
                if (c1 =? RBRACE)%N then Some (JObj [], r2)
                else
                  (fix members (g : nat) (s : pystr) (acc : list (pystr * json))
                     : option (json * pystr) :=
                     match g, s with
                     | S g', q :: r =>
                         if (q =? QUOTE)%N then
                           match scan_string r [] with
                           | Some (key, r1) =>
                               match skip_ws r1 with
                               | colon :: r2 =>
                                   if (colon =? 58)%N then
                                     match scan_value f (skip_ws r2) with
                                     | Some (v, r3) =>
                                         let acc' := dict_set acc key v in
                                         match skip_ws r3 with
                                         | d :: r4 =>
                                             if (d =? 44)%N then members g' (skip_ws r4) acc'
                                             else if (d =? RBRACE)%N then Some (JObj acc', r4)
                                             else None
                                         | [] => None
                                         end
                                     | None => None
                                     end
                                   else None
                               | [] => None
                               end
                           | None => None
                           end
                         else None
                     | _, _ => None
                     end) f (c1 :: r2) []
            end
          else if (c =? 91)%N then
            match skip_ws r with
            | [] => None
            | c1 :: r2 =>
                if (c1 =? 93)%N then Some (JArr [], r2)
                else
                  (fix elements (g : nat) (s : pystr) (acc : list json)
                     : option (json * pystr) :=
                     match g with
                     | S g' =>
                         match scan_value f s with
                         | Some (v, r3) =>
                             match skip_ws r3 with
                             | d :: r4 =>
                                 if (d =? 44)%N then elements g' (skip_ws r4) (v :: acc)
                                 else if (d =? 93)%N then Some (JArr (rev (v :: acc)), r4)
                                 else None
                             | [] => None
                             end
                         | None => None
                         end
                     | O => None
                     end) f (c1 :: r2) []
            end
          else if startswith (lit "null") s then Some (JNull, skipn 4 s)
          else if startswith (lit "true") s then Some (JBool true, skipn 4 s)
          else if startswith (lit "false") s then Some (JBool false, skipn 5 s)
          else scan_number s
      end
  end.

(** The whole text must be one value, white space around it apart. *)
Definition loads (s : pystr) : option json :=
  match scan_value (S (length s)) (skip_ws s) with
  | Some (v, r) =>
      match skip_ws r with
      | [] => Some v
      | _ :: _ => None
      end
  | None => None
  end.

Definition is_space (c : N) : bool :=
  (((9 <=? c) && (c <=? 13)) || ((28 <=? c) && (c <=? 32)))%N.

Fixpoint lstrip (s : pystr) : pystr :=
  match s with
  | c :: r => if is_space c then lstrip r else s
  | [] => []
  end.

Definition strip (s : pystr) : pystr := rev (lstrip (rev (lstrip s))).

(** [None], [True], [False] and the integers as an f-string shows them;
    the other values are not rendered. *)
Definition show (v : json) : pystr :=
  match v with
  | JNull => lit "None"
  | JBool true => lit "True"
  | JBool false => lit "False"
  | JInt z => lit (NilZero.string_of_int (Z.to_int z))
  | _ => []
  end.

Definition lib : PyLib :=
  {| unicode_lower := fun s => s;
     unicode_lower_nonempty := fun s H => H;
     str_strip := strip;
     json_loads := loads;
     format_value := show |}.

Definition to_bytes (s : pystr) : bytes :=
  map (fun c => match Byte.of_N c with Some b => b | None => Byte.x3f end) s.

Definition of_bytes (b : bytes) : pystr := map Byte.to_N b.

Fixpoint split_lines (s cur : pystr) : list pystr :=
  match s with
  | [] => [rev cur]
  | c :: r =>
      if (c =? NEWLINE)%N then rev cur :: split_lines r []
      else split_lines r (c :: cur)
  end.

Definition plain (text : pystr) : paragraph :=
  [ {| run_text := text; highlight_color := None |} ].

Definition read_document (b : bytes) : result docx :=
  Ok {| paragraphs := map plain (split_lines (of_bytes b) []); tables := [] |}.

Definition write_document (d : docx) : bytes :=
  to_bytes (join [NEWLINE] (map para_text (paragraphs d))).

(** The characters of XML text: no control character, no surrogate, not
    U+FFFE or U+FFFF. *)
Definition xml_char (c : N) : bool :=
  ((32 <=? c) && (c <=? 55295) || (57344 <=? c) && (c <=? 65533) ||
   (65536 <=? c) && (c <=? 1114111))%N.

(** The reviewer answers its n-th call with the n-th of [responses]. *)
Definition collaborators (responses : list pystr) : Collaborators :=
  {| Document := read_document;
     docx_save := write_document;
     xml_compatible := xml_char;
     vectordb := unit;
     ingest_pdfs_to_faiss := fun _ => Ok tt;
     qa_run := fun _ k _ =>
       match nth_error responses k with
       | Some r => Ok r
       | None => Raise
       end |}.

End Reference.

(** Collaborators whose reader rejects the empty binary. *)
Module Fussy.

Definition read_document (b : bytes) : result docx :=
  match b with
  | [] => Raise
  | _ :: _ => Reference.read_document b
  end.

Definition collaborators (responses : list pystr) : Collaborators :=
  {| Document := read_document;
     docx_save := Reference.write_document;
     xml_compatible := Reference.xml_char;
     vectordb := unit;
     ingest_pdfs_to_faiss := fun _ => Ok tt;
     qa_run := fun _ k _ =>
       match nth_error responses k with
       | Some r => Ok r
       | None => Raise
       end |}.

End Fussy.

(** ** The vocabulary of the statements *)

(** No keyword of the entry occurs in the text. *)
Definition silent (text_l : pystr) (entry : pystr * list pystr) : Prop :=
  Forall (fun k => ~ occurs k text_l) (snd entry).

(** How many more opening than closing braces a text has. *)
Definition balance (s : pystr) : Z :=
  Z.of_nat (count_occ N.eq_dec s LBRACE) - Z.of_nat (count_occ N.eq_dec s RBRACE).

(** [start] is the position of the first opening brace of [text]. *)
Definition first_brace (text : pystr) (start : nat) : Prop :=
  nth_error text start = Some LBRACE /\ ~ In LBRACE (firstn start text).

(** [text[start:i+1]] is the shortest span from [start] whose braces
    balance. *)
Definition first_balanced (text : pystr) (start i : nat) : Prop :=
  (start <= i < length text)%nat /\
  balance (slice text start (i + 1)) = 0%Z /\
  forall j, (start <= j < i)%nat -> balance (slice text start (j + 1)) <> 0%Z.

(** No span from [start] balances. *)
Definition never_balanced (text : pystr) (start : nat) : Prop :=
  forall i, (start <= i < length text)%nat ->
            balance (slice text start (i + 1)) <> 0%Z.

(** An issue of the shape the prompt asks for (line 100): a mapping with up
    to four text fields, any of which may be missing. *)
Record Issue : Type := {
  section_field : option pystr;
  issue_field : option pystr;
  severity_field : option pystr;
  suggestion_field : option pystr
}.

Definition field (key : pystr) (v : option pystr) : list (pystr * json) :=
  match v with
  | Some s => [(key, JStr s)]
  | None => []
  end.

Definition issue_json (i : Issue) : json :=
  JObj (field (lit "section") (section_field i) ++
        field (lit "issue") (issue_field i) ++
        field (lit "severity") (severity_field i) ++
        field (lit "suggestion") (suggestion_field i)).

(** A missing field reads as the empty text. *)
Definition text_of (v : option pystr) : pystr :=
  match v with
  | Some s => s
  | None => []
  end.

(** [p'] is [p] with highlighted remark runs added at its end. *)
Definition extended (p p' : paragraph) : Prop :=
  exists suggestions : list pystr,
    p' = p ++ map (fun s => highlighted (lit " " ++ remark s)) suggestions.

(** The paragraphs of [old] are all in [new], at their positions, each with
    its text followed by remarks, if any. *)
Definition paragraphs_kept (old new : list paragraph) : Prop :=
  (length old <= length new)%nat /\
  forall n p, nth_error old n = Some p ->
    exists p' suggestions,
      nth_error new n = Some p' /\
      para_text p' =
        para_text p ++
        concat (map (fun s => lit " [Suggestion: " ++ s ++ lit "]") suggestions).

(** The paragraphs of [old] are the first of [new], extended. *)
Definition grown (old new : list paragraph) : Prop :=
  exists kept added, new = kept ++ added /\ Forall2 extended old kept.

Definition is_mapping (v : json) : Prop := exists items, v = JObj items.

(** A field of an issue, the empty text when the issue does not have it. *)
Definition field_or_empty (i : json) (key : pystr) : json :=
  match i with
  | JObj items => match assoc key items with Some v => v | None => JStr [] end
  | _ => JStr []
  end.

(** The entry of the report for issue [i] of a document of type [doc_type]. *)
Definition tagged (doc_type : pystr) (i : json) : json :=
  JObj [ (lit "document", JStr doc_type);
         (lit "section", field_or_empty i (lit "section"));
         (lit "issue", field_or_empty i (lit "issue"));
         (lit "severity", field_or_empty i (lit "severity"));
         (lit "suggestion", field_or_empty i (lit "suggestion")) ].

(** What the review of one upload yields: the classified type, the issues
    in the order the reviewer gave them, and the annotated file. *)
Record reviewed : Type := {
  r_type : pystr;
  r_items : list json;
  r_bytes : bytes
}.

Definition flattened (rs : list reviewed) : list json :=
  concat (map (fun r => map (tagged (r_type r)) (r_items r)) rs).

(** How a field of an issue reads as a text: the text it holds, and the
    empty text when the key is missing. *)
Definition reads_as (v : option json) (t : pystr) : Prop :=
  v = Some (JStr t) \/ (v = None /\ t = []).

(** The same when the value goes through [or ""]: a value that counts as
    false, [None] among them, reads as the empty text. *)
Definition reads_as_or_empty (v : option json) (t : pystr) : Prop :=
  reads_as v t \/ (exists x, v = Some x /\ truthy x = false /\ t = []).

(** The number of runs of the paragraphs. *)
Definition total_runs (paras : list paragraph) : nat := length (concat paras).

Definition yellow (r : run) : Prop := highlight_color r = Some YELLOW.

(** [p'] is [p] followed by highlighted runs. *)
Definition followed_by_yellow (p p' : paragraph) : Prop :=
  exists added, p' = p ++ added /\ Forall yellow added.

(** [new] is [old] with highlighted runs added at the end of some of its
    paragraphs, followed by paragraphs made of highlighted runs. *)
Definition only_yellow_added (old new : list paragraph) : Prop :=
  exists kept added,
    new = kept ++ added /\
    Forall2 followed_by_yellow old kept /\
    Forall (fun p => p <> [] /\ Forall yellow p) added.

Section Vocabulary.
Context {L : PyLib} {C : Collaborators}.

(** What the function returns once the span [text[start:i+1]] is chosen. *)
Definition parsed_span (text : pystr) (start i : nat) : json :=
  match json_loads (slice text start (i + 1)) with
  | Some v => v
  | None => JObj []
  end.

(** The lookup snippet of an issue: its section, lower-cased, when the
    section is not empty, and otherwise the first 50 characters of its
    description, lower-cased. *)
Definition snippet_of (i : Issue) : pystr :=
  match text_of (section_field i) with
  | [] => lower (firstn 50 (text_of (issue_field i)))
  | (_ :: _) as sec => lower sec
  end.

(** The paragraph does not match the snippet. *)
Definition unmatched (snippet : pystr) (para : paragraph) : Prop :=
  ~ occurs snippet (lower (para_text para)).

(** The snippet made of the section and the description of an issue: the
    section, lower-cased, when it is not empty, and otherwise the first 50
    characters of the description, lower-cased. *)
Definition snippet_from (sec iss : pystr) : pystr :=
  match sec with
  | [] => lower (firstn 50 iss)
  | _ :: _ => lower sec
  end.

(** The paragraph matches the snippet: the snippet is not empty and occurs
    in the lower-cased text of the paragraph. *)
Definition matches (snippet : pystr) (para : paragraph) : Prop :=
  snippet <> [] /\ occurs snippet (lower (para_text para)).

(** The suggestion of an issue as the remark shows it: a text as it is,
    another value as the runtime renders it, the empty text when the issue
    has none. *)
Definition suggestion_text (issue : json) : pystr :=
  match field_or_empty issue (lit "suggestion") with
  | JStr s => s
  | v => format_value v
  end.

(** The stages of lines 155-169 all return on upload number [fst kd], and
    [r] is what they give. *)
Definition document_review (db : vectordb) (kd : nat * upload) (r : reviewed) : Prop :=
  exists text review_json,
    extract_text_from_docx_bytes (content (snd kd)) = Ok text /\
    r_type r = classify_document (Some text) /\
    run_rag_review (qa_run db (fst kd)) (r_type r) text = Ok review_json /\
    review_issues review_json = Ok (r_items r) /\
    Forall is_mapping (r_items r) /\
    annotate_docx_inline (content (snd kd)) review_json = Ok (r_bytes r).

Definition extend (st : run_state) (kds : list (nat * upload)) (rs : list reviewed)
  : run_state :=
  {| detected_types := detected_types st ++ map r_type rs;
     all_issues := all_issues st ++ flattened rs;
     reviewed_files :=
       reviewed_files st ++
       map (fun p => (name (snd (fst p)), r_bytes (snd p))) (combine kds rs) |}.

End Vocabulary.

(** ** Sample inputs *)

Module Sample.

(** A document of two paragraphs. *)
Definition two_sections : bytes :=
  Reference.to_bytes
    (lit "Section 1: Capital" ++ [NEWLINE] ++ lit "Section 2: Directors").

Definition capital : paragraph := Reference.plain (lit "Section 1: Capital").
Definition directors : paragraph := Reference.plain (lit "Section 2: Directors").

Definition two_sections_doc : docx :=
  {| paragraphs := [capital; directors]; tables := [] |}.

Definition on_directors : Issue :=
  {| section_field := Some (lit "Directors");
     issue_field := None;
     severity_field := None;
     suggestion_field := Some (lit "Add signature") |}.

Definition on_shareholders : Issue :=
  {| section_field := Some (lit "Shareholders");
     issue_field := Some (lit "No shareholder clause");
     severity_field := Some (lit "High");
     suggestion_field := Some (lit "Add clause") |}.

(** An issue with neither a section nor a description. *)
Definition bare_suggestion : Issue :=
  {| section_field := None;
     issue_field := None;
     severity_field := None;
     suggestion_field := Some (lit "Add signature") |}.

Definition review_of (issues : list json) : json :=
  JObj [ (lit "document", JStr (lit "X")); (lit "issues", JArr issues) ].

Definition articles : upload :=
  {| name := lit "aoa.docx";
     content := Reference.to_bytes
                  (lit "ARTICLES OF ASSOCIATION" ++ [NEWLINE] ++ lit "Section 2: Directors") |}.

Definition memorandum : upload :=
  {| name := lit "moa.docx";
     content := Reference.to_bytes (lit "Memorandum of the company") |}.

Definition reference_pdf : upload :=
  {| name := lit "adgm.pdf"; content := [] |}.

Definition responses : list pystr :=
  [ qlit "Review: {'document': 'A', 'issues': [{'section': 'Directors', 'issue': 'No signature', 'severity': 'High', 'suggestion': 'Add signature'}, {'issue': 'No date', 'suggestion': 'Add date'}]} End.";
    qlit "{'issues': [{'section': 'Memorandum', 'suggestion': 'Cite the regulations'}]}" ].

Definition empty_upload : upload :=
  {| name := lit "empty.docx"; content := [] |}.

(** Two issues, the second of which names a word of the first one's
    suggestion. *)
Definition on_clause : Issue :=
  {| section_field := Some (lit "Clause");
     issue_field := None;
     severity_field := None;
     suggestion_field := Some (lit "Number it") |}.

Definition issues_of (issues : list json) : json :=
  JObj [ (lit "issues", JArr issues) ].

(** An issue with its keys in another order, a key nobody asked for and a
    null description. *)
Definition keyed_issue : list (pystr * json) :=
  [ (lit "suggestion", JStr (lit "Add signature"));
    (lit "confidence", JInt 3);
    (lit "section", JStr (lit "DIRECTORS"));
    (lit "issue", JNull) ].

End Sample.

(** ** Text and outcome lemmas *)

Lemma str_eqb_eq (a b : pystr) : str_eqb a b = true <-> a = b.
Proof.
  revert b; induction a as [|x a IH]; intros [|y b]; simpl; split;
    try congruence; try reflexivity.
  - intros H. apply andb_true_iff in H as [Hx Hr].
    apply N.eqb_eq in Hx. apply IH in Hr. now subst.
  - intros H; inversion H; subst.
    apply andb_true_iff; split; [apply N.eqb_refl | now apply IH].
Qed.

Lemma str_mem_In (x : pystr) (xs : list pystr) : str_mem x xs = true <-> In x xs.
Proof.
  unfold str_mem. rewrite existsb_exists. split.
  - intros [y [Hin Heq]]. apply str_eqb_eq in Heq. now subst.
  - intros Hin. exists x. split; [assumption | now apply str_eqb_eq].
Qed.

Lemma startswith_prefix (p s : pystr) :
  startswith p s = true <-> exists post, s = p ++ post.
Proof.
  revert s; induction p as [|a p IH]; intros s; simpl.
  - split; [intros _; now exists s | reflexivity].
  - destruct s as [|b s].
    + split; [discriminate | intros [post H]; discriminate].
    + rewrite andb_true_iff, N.eqb_eq, IH. split.
      * intros [-> [post ->]]. now exists post.
      * intros [post H]. inversion H; subst. split; [reflexivity | now exists post].
Qed.

(** [contains] decides [occurs]. *)
Lemma contains_occurs (sub s : pystr) : contains sub s = true <-> occurs sub s.
Proof.
  unfold occurs. induction s as [|c s IH].
  - simpl. rewrite orb_false_r, startswith_prefix. split.
    + intros [post H]. exists [], post. exact H.
    + intros [pre [post H]]. destruct pre; [now exists post | discriminate].
  - cbn [contains]. rewrite orb_true_iff, startswith_prefix, IH. split.
    + intros [[post H] | [pre [post H]]].
      * exists [], post. exact H.
      * exists (c :: pre), post. simpl. now rewrite H.
    + intros [[|x pre] [post H]].
      * left. now exists post.
      * right. inversion H; subst. now exists pre, post.
Qed.

Lemma contains_false (sub s : pystr) : contains sub s = false <-> ~ occurs sub s.
Proof.
  rewrite <- contains_occurs. destruct (contains sub s); split; congruence.
Qed.

Lemma occurs_empty (s : pystr) : occurs [] s.
Proof. exists [], s. reflexivity. Qed.

Lemma bind_Ok {A B} (r : result A) (k : A -> result B) (b : B) :
  bind r k = Ok b <-> exists a, r = Ok a /\ k a = Ok b.
Proof.
  destruct r; simpl; split.
  - intros H. now exists a.
  - intros [a' [H1 H2]]. inversion H1; now subst.
  - discriminate.
  - intros [a' [H1 _]]. discriminate.
Qed.

Lemma for_each_app {S X} (body : S -> X -> result S) (xs ys : list X) (s : S) :
  for_each body (xs ++ ys) s = (s' <- for_each body xs s ;; for_each body ys s').
Proof.
  revert s; induction xs as [|x xs IH]; intros s; simpl; [reflexivity|].
  destruct (body s x); simpl; [apply IH | reflexivity].
Qed.

(** ** The classifier *)

Section Classifier.
Context {L : PyLib}.

Lemma lower_empty : lower [] = [].
Proof. reflexivity. Qed.

Lemma existsb_contains (text_l : pystr) (keys : list pystr) :
  existsb (fun k => contains k text_l) keys = true <->
  Exists (fun k => occurs k text_l) keys.
Proof.
  rewrite existsb_exists, Exists_exists.
  split; intros [k [Hin Hk]]; exists k; (split; [assumption|]);
    now apply contains_occurs.
Qed.

Lemma existsb_contains_false (text_l : pystr) (keys : list pystr) :
  existsb (fun k => contains k text_l) keys = false <->
  Forall (fun k => ~ occurs k text_l) keys.
Proof.
  induction keys as [|k keys IH]; simpl.
  - split; [constructor | reflexivity].
  - rewrite orb_false_iff, IH, contains_false. split.
    + intros [H1 H2]. now constructor.
    + intros H. inversion H; subst. now split.
Qed.

(** The loop returns the label of the first entry one of whose keywords
    occurs, and the sentinel when there is none. *)
Lemma classify_loop_first (text_l : pystr) (table : list (pystr * list pystr)) :
  (exists before doc_type keys after,
      table = before ++ (doc_type, keys) :: after /\
      Forall (silent text_l) before /\
      Exists (fun k => occurs k text_l) keys /\
      classify_loop text_l table = doc_type)
  \/ (Forall (silent text_l) table /\ classify_loop text_l table = UNKNOWN).
Proof.
  induction table as [|[doc_type keys] rest IH]; simpl.
  - right. split; [constructor | reflexivity].
  - destruct (existsb (fun k => contains k text_l) keys) eqn:E.
    + left. exists [], doc_type, keys, rest.
      repeat split; [constructor | now apply existsb_contains].
    + apply existsb_contains_false in E.
      destruct IH as [[before [d [ks [after [Ht [Hb [Hk Hc]]]]]]] | [Hall Hc]].
      * left. exists ((doc_type, keys) :: before), d, ks, after.
        repeat split; [now rewrite Ht | now constructor | assumption | assumption].
      * right. split; [now constructor | assumption].
Qed.

Lemma classify_document_loop (text : pystr) :
  classify_document (Some text) = classify_loop (lower text) DOC_TYPE_KEYWORDS.
Proof. destruct text; reflexivity. Qed.

(** C2: the classifier lower-cases the text once and walks the keyword table
    in its declared order; it returns the label of the first entry one of
    whose keywords occurs somewhere in the lower-cased text, so that an
    earlier label wins over a later one, and it returns "Unknown Document
    Type" when no keyword of any entry occurs, which is the case of the
    empty text. *)
Theorem classify_document_first_label (text : pystr) :
  classify_document (Some text) = classify_loop (lower text) DOC_TYPE_KEYWORDS /\
  ((exists before doc_type keys after,
       DOC_TYPE_KEYWORDS = before ++ (doc_type, keys) :: after /\
       Forall (silent (lower text)) before /\
       Exists (fun k => occurs k (lower text)) keys /\
       classify_document (Some text) = doc_type)
   \/ (Forall (silent (lower text)) DOC_TYPE_KEYWORDS /\
       classify_document (Some text) = lit "Unknown Document Type")) /\
  classify_document (Some []) = lit "Unknown Document Type".
Proof.
  split; [apply classify_document_loop | split; [|reflexivity]].
  rewrite classify_document_loop. apply classify_loop_first.
Qed.

(** C9: on [None] the classifier does what it does on the empty text: it
    returns "Unknown Document Type". *)
Theorem classify_document_None :
  classify_document None = classify_document (Some []) /\
  classify_document None = lit "Unknown Document Type".
Proof. split; reflexivity. Qed.

(** C8: every label the "Company Incorporation" checklist requires is a key
    of the keyword table, and the classifier can return it: it does so on
    the label's own name. *)
Theorem required_labels_classifiable :
  exists required_docs,
    assoc (lit "Company Incorporation") ADGM_CHECKLISTS = Some required_docs /\
    Forall (fun d => In d (map fst DOC_TYPE_KEYWORDS) /\
                     classify_document (Some d) = d) required_docs.
Proof.
  eexists. split; [reflexivity|].
  repeat (apply Forall_cons; [split; [simpl; tauto | reflexivity] |]).
  apply Forall_nil.
Qed.

End Classifier.

(** ** The checklist audit *)

Lemma missing_same_members (required detected detected' : list pystr) :
  (forall x, In x detected <-> In x detected') ->
  missing required detected' = missing required detected.
Proof.
  intros H. unfold missing. apply filter_ext. intros d. f_equal.
  destruct (str_mem d detected) eqn:E, (str_mem d detected') eqn:E'; try reflexivity.
  - apply str_mem_In, H, str_mem_In in E. congruence.
  - apply str_mem_In, H, str_mem_In in E'. congruence.
Qed.

Lemma missing_first (required detected : list pystr) :
  match missing required detected with
  | d :: _ =>
      exists before after,
        required = before ++ d :: after /\
        Forall (fun x => In x detected) before /\ ~ In d detected
  | [] => Forall (fun x => In x detected) required
  end.
Proof.
  induction required as [|r required IH]; simpl; [constructor|].
  destruct (str_mem r detected) eqn:E; simpl.
  - apply str_mem_In in E.
    destruct (missing required detected) as [|d rest].
    + now constructor.
    + destruct IH as [before [after [Hr [Hb Hd]]]].
      exists (r :: before), after. repeat split; [now rewrite Hr | now constructor | assumption].
  - exists [], required. repeat split; [constructor|].
    intros Hin. apply str_mem_In in Hin. congruence.
Qed.

(** C4: the audit returns the first label of the required list, in the
    list's order, that is nowhere in the detected sequence, and [None] when
    every required label is detected; reordering the detected sequence does
    not change the answer. *)
Theorem missing_document_first_absent
  (required detected detected' : list pystr)
  (Hperm : Permutation detected detected') :
  match missing_document_of required detected with
  | Some d =>
      exists before after,
        required = before ++ d :: after /\
        Forall (fun x => In x detected) before /\ ~ In d detected
  | None => Forall (fun x => In x detected) required
  end /\
  (missing_document_of required detected = None <->
   Forall (fun x => In x detected) required) /\
  missing_document_of required detected' = missing_document_of required detected.
Proof.
  assert (Hfirst : match missing_document_of required detected with
                   | Some d =>
                       exists before after,
                         required = before ++ d :: after /\
                         Forall (fun x => In x detected) before /\ ~ In d detected
                   | None => Forall (fun x => In x detected) required
                   end).
  { unfold missing_document_of. pose proof (missing_first required detected) as H.
    destruct (missing required detected); exact H. }
  split; [exact Hfirst | split].
  - destruct (missing_document_of required detected) as [d|].
    + destruct Hfirst as [before [after [Hr [_ Hd]]]]. split; [discriminate|].
      intros Hall. exfalso. apply Hd.
      rewrite Forall_forall in Hall. apply Hall. rewrite Hr.
      apply in_or_app. right. now left.
    + split; [intros _; exact Hfirst | reflexivity].
  - unfold missing_document_of. rewrite (missing_same_members required detected detected').
    + reflexivity.
    + intros x. split; apply Permutation_in; [assumption | now apply Permutation_sym].
Qed.

(** ** The JSON extraction *)

Lemma find_first (c : N) (text : pystr) :
  (find c text = (-1)%Z /\ ~ In c text) \/
  (exists n, find c text = Z.of_nat n /\
             nth_error text n = Some c /\ ~ In c (firstn n text)).
Proof.
  induction text as [|x text IH]; simpl.
  - left. split; [reflexivity | tauto].
  - destruct (N.eqb_spec x c) as [->|Hne].
    + right. exists 0%nat. simpl. repeat split. tauto.
    + destruct IH as [[Hf Hn] | [n [Hf [Hnth Hn]]]].
      * left. rewrite Hf. simpl. split; [reflexivity | tauto].
      * right. exists (S n). rewrite Hf.
        replace (Z.of_nat n =? -1)%Z with false by (symmetry; apply Z.eqb_neq; lia).
        simpl nth_error. simpl firstn. repeat split; [lia | assumption |].
        simpl. tauto.
Qed.

Lemma firstn_snoc {A} (l : list A) (k : nat) (x : A) :
  nth_error l k = Some x -> firstn (S k) l = firstn k l ++ [x].
Proof.
  revert k; induction l as [|a l IH]; intros [|k] H; simpl in *; try discriminate.
  - now inversion H.
  - f_equal. now apply IH.
Qed.

Lemma slice_snoc (text : pystr) (start i : nat) (c : N) :
  (start <= i)%nat -> nth_error text i = Some c ->
  slice text start (i + 1) = slice text start i ++ [c].
Proof.
  intros Hle Hnth. unfold slice.
  replace (i + 1 - start)%nat with (S (i - start)) by lia.
  apply firstn_snoc. rewrite nth_error_skipn. now replace (start + (i - start))%nat with i by lia.
Qed.

Lemma balance_snoc (s : pystr) (c : N) :
  balance (s ++ [c]) =
  (balance s + (if (c =? LBRACE)%N then 1 else if (c =? RBRACE)%N then -1 else 0))%Z.
Proof.
  unfold balance. rewrite !count_occ_app. cbn [count_occ].
  destruct (N.eq_dec c LBRACE) as [E1|E1], (N.eq_dec c RBRACE) as [E2|E2];
    destruct (N.eqb_spec c LBRACE), (N.eqb_spec c RBRACE);
    try congruence; try lia.
  subst c. discriminate.
Qed.

Lemma slice_empty (text : pystr) (start : nat) : slice text start start = [].
Proof. unfold slice. now rewrite Nat.sub_diag. Qed.

Section Extraction.
Context {L : PyLib}.

(** The loop from position [i] on, with [depth] the balance of what was
    scanned and no balanced span met so far. *)
Lemma scan_braces_first_balanced (text : pystr) (start : nat) :
  nth_error text start = Some LBRACE ->
  forall n i depth,
    (i + n = length text)%nat -> (start <= i)%nat ->
    depth = balance (slice text start i) ->
    (forall j, (start <= j < i)%nat -> balance (slice text start (j + 1)) <> 0%Z) ->
    (0 <= depth)%Z ->
    exists v, scan_braces text start (seq i n) depth = Ok v /\
      ((exists e, first_balanced text start e /\ v = parsed_span text start e) \/
       (never_balanced text start /\ v = JObj [])).
Proof.
  intros Hstart. induction n as [|n IH]; intros i depth Hlen Hle Hdepth Hprev Hpos.
  - simpl. exists (JObj []). split; [reflexivity|]. right. split; [|reflexivity].
    intros e He. apply Hprev. lia.
  - simpl. unfold getitem.
    destruct (nth_error text i) as [c|] eqn:Hc.
    2:{ apply nth_error_None in Hc. lia. }
    simpl.
    assert (Hnext : balance (slice text start (i + 1)) =
                    (depth + (if (c =? LBRACE)%N then 1
                              else if (c =? RBRACE)%N then -1 else 0))%Z).
    { rewrite (slice_snoc text Hle Hc), balance_snoc. now subst depth. }
    assert (Hnz : (start < i)%nat -> depth <> 0%Z).
    { intros Hlt. subst depth. replace i with ((i - 1) + 1)%nat by lia.
      apply Hprev. lia. }
    assert (Hat : i = start -> c = LBRACE) by (intros ->; congruence).
    destruct (N.eqb_spec c LBRACE) as [Hl|Hl].
    + apply IH; [lia | lia | | | lia].
      * replace (S i) with (i + 1)%nat by lia. lia.
      * intros j Hj. destruct (Nat.eq_dec j i) as [->|]; [lia | apply Hprev; lia].
    + assert (start < i)%nat by (destruct (Nat.eq_dec i start); [tauto | lia]).
      specialize (Hnz ltac:(assumption)).
      destruct (N.eqb_spec c RBRACE) as [Hr|Hr].
      * destruct (Z.eqb_spec (depth - 1) 0) as [Hz|Hz].
        -- exists (parsed_span text start i). split.
           ++ unfold parsed_span. now destruct (json_loads (slice text start (i + 1))).
           ++ left. exists i. split; [|reflexivity].
              repeat split; [lia | lia | lia | assumption].
        -- apply IH; [lia | lia | | | lia].
           ++ replace (S i) with (i + 1)%nat by lia. lia.
           ++ intros j Hj. destruct (Nat.eq_dec j i) as [->|]; [lia | apply Hprev; lia].
      * apply IH; [lia | lia | | | lia].
        -- replace (S i) with (i + 1)%nat by lia. lia.
        -- intros j Hj. destruct (Nat.eq_dec j i) as [->|]; [lia | apply Hprev; lia].
Qed.

(** The function returns on every text. *)
Lemma extract_json_returns (text : pystr) :
  exists v, _extract_json_from_text text = Ok v.
Proof.
  unfold _extract_json_from_text.
  destruct (find_first LBRACE text) as [[Hf _] | [n [Hf [Hnth _]]]]; rewrite Hf.
  - now exists EMPTY_DICT.
  - replace (Z.of_nat n =? -1)%Z with false by (symmetry; apply Z.eqb_neq; lia).
    rewrite Nat2Z.id.
    assert (n < length text)%nat by (apply nth_error_Some; congruence).
    destruct (@scan_braces_first_balanced text n Hnth (length text - n) n 0%Z)
      as [v [Hv _]]; try lia.
    + now rewrite slice_empty.
    + now exists v.
Qed.

(** C3: the function never raises.  Without an opening brace it returns the
    empty mapping.  Otherwise it counts literal brace characters from the
    first opening brace on, whatever the quoting, and at the first position
    where they balance it decodes that span and nothing else, returning the
    decoded value, or the empty mapping when the decoder raises; when the
    braces never balance it returns the empty mapping. *)
Theorem extract_json_first_balanced_span (text : pystr) :
  exists v, _extract_json_from_text text = Ok v /\
    ((~ In LBRACE text /\ v = JObj []) \/
     (exists start, first_brace text start /\
        ((exists i, first_balanced text start i /\
                    v = match json_loads (slice text start (i + 1)) with
                        | Some parsed => parsed
                        | None => JObj []
                        end) \/
         (never_balanced text start /\ v = JObj [])))).
Proof.
  unfold _extract_json_from_text.
  destruct (find_first LBRACE text) as [[Hf Hn] | [n [Hf [Hnth Hn]]]]; rewrite Hf.
  - exists (JObj []). split; [reflexivity|]. left. now split.
  - replace (Z.of_nat n =? -1)%Z with false by (symmetry; apply Z.eqb_neq; lia).
    rewrite Nat2Z.id.
    assert (n < length text)%nat by (apply nth_error_Some; congruence).
    destruct (@scan_braces_first_balanced text n Hnth (length text - n) n 0%Z)
      as [v [Hv Hcase]]; try lia.
    + now rewrite slice_empty.
    + exists v. split; [assumption|]. right. exists n. split; [now split|].
      exact Hcase.
Qed.

End Extraction.

(** ** The review *)

Section Review.
Context {L : PyLib}.

(** C1, as the code has it: the review extracts the JSON of the response and
    replaces the extracted value by the mapping
    [{document: doc_name, issues: []}] exactly when that value is empty;
    a non-empty extracted value is returned as it is, with or without an
    'issues' field.  What is returned is therefore never empty. *)
Theorem run_rag_review_synthesizes_when_empty
  (qa : pystr -> result pystr) (doc_name doc_text resp : pystr)
  (Hresp : qa (review_prompt doc_name doc_text) = Ok resp) :
  exists parsed,
    _extract_json_from_text resp = Ok parsed /\
    run_rag_review qa doc_name doc_text =
      Ok (if truthy parsed then parsed else synthesized doc_name) /\
    truthy (if truthy parsed then parsed else synthesized doc_name) = true /\
    has_field (synthesized doc_name) (lit "issues") = true.
Proof.
  destruct (extract_json_returns resp) as [parsed Hp].
  exists parsed. split; [assumption|]. unfold run_rag_review.
  rewrite Hresp. simpl. rewrite Hp. simpl.
  destruct (truthy parsed) eqn:E; simpl; auto.
Qed.

End Review.

(** ** The annotator *)

Lemma Forall2_extended_refl_in (P : paragraph -> paragraph -> Prop)
      (before after : list paragraph) (p p' : paragraph) :
  (forall q, P q q) -> P p p' ->
  Forall2 P (before ++ p :: after) (before ++ p' :: after).
Proof.
  intros Hrefl Hp. apply Forall2_app.
  - induction before; constructor; auto.
  - constructor; [assumption|]. induction after; constructor; auto.
Qed.

Section Annotator.
Context {L : PyLib} {C : Collaborators}.

Lemma lower_nil_inv (s : pystr) : lower s = [] -> s = [].
Proof.
  unfold lower. destruct (forallb is_ascii s).
  - apply map_eq_nil.
  - apply unicode_lower_nonempty.
Qed.

Lemma issue_snippet_json (i : Issue) :
  issue_snippet (issue_json i) = Ok (snippet_of i).
Proof.
  destruct i as [[[|c sec]|] [iss|] [sev|] [sug|]];
    unfold snippet_of; try reflexivity;
    cbn;
    destruct (lower (c :: sec)) eqn:E; try reflexivity;
    apply lower_nil_inv in E; discriminate.
Qed.

Lemma issue_comment_json (i : Issue) :
  issue_comment (issue_json i) = Ok (remark (text_of (suggestion_field i))).
Proof.
  destruct i as [[sec|] [iss|] [sev|] [sug|]]; reflexivity.
Qed.

Lemma set_text_Ok (text : pystr) :
  forallb insertable text = true -> set_text text = Ok (map stored_char text).
Proof. intros H. unfold set_text. now rewrite H. Qed.

Lemma set_text_inv (text stored : pystr) :
  set_text text = Ok stored ->
  forallb insertable text = true /\ stored = map stored_char text.
Proof.
  unfold set_text. destruct (forallb insertable text); [|discriminate].
  intros H. injection H as <-. now split.
Qed.

Lemma stored_remark (s : pystr) :
  map stored_char (remark s) = remark (map stored_char s).
Proof. unfold remark. now rewrite !map_app. Qed.

Lemma stored_spaced_remark (s : pystr) :
  map stored_char (lit " " ++ remark s) = lit " " ++ remark (map stored_char s).
Proof. now rewrite map_app, stored_remark. Qed.

(** The snippet of a mapping whose section and description read as texts. *)
Lemma issue_snippet_reads (items : list (pystr * json)) (sec iss : pystr) :
  reads_as_or_empty (assoc (lit "section") items) sec ->
  (sec = [] -> reads_as (assoc (lit "issue") items) iss) ->
  issue_snippet (JObj items) = Ok (snippet_from sec iss).
Proof.
  intros Hsec Hiss. unfold issue_snippet. cbn [dict_get bind].
  assert (Hsection : lower_method
            (or_empty match assoc (lit "section") items with
                      | Some v => v
                      | None => JNull
                      end) = Ok (lower sec)).
  { destruct Hsec as [[-> | [-> ->]] | [x [-> [Hx ->]]]].
    - unfold or_empty. destruct (truthy (JStr sec)) eqn:E; [reflexivity|].
      destruct sec; [reflexivity | discriminate].
    - reflexivity.
    - unfold or_empty. now rewrite Hx. }
  rewrite Hsection. cbn [bind]. unfold snippet_from.
  destruct sec as [|c sec].
  - rewrite lower_empty.
    destruct (Hiss eq_refl) as [-> | [-> ->]]; reflexivity.
  - destruct (lower (c :: sec)) eqn:E; [|reflexivity].
    apply lower_nil_inv in E. discriminate.
Qed.

(** The comment of an issue for which a snippet was computed. *)
Lemma issue_comment_text (issue : json) (snippet : pystr) :
  issue_snippet issue = Ok snippet ->
  issue_comment issue = Ok (remark (suggestion_text issue)).
Proof.
  destruct issue; try discriminate. intros _.
  unfold issue_comment, suggestion_text, field_or_empty. cbn [dict_get bind].
  destruct (assoc (lit "suggestion") items) as [[]|]; reflexivity.
Qed.

Lemma match_test (snippet : pystr) (para : paragraph) :
  nonempty snippet && contains snippet (lower (para_text para)) = true <->
  matches snippet para.
Proof.
  unfold matches. rewrite andb_true_iff, contains_occurs.
  unfold nonempty. destruct snippet; cbn; split; intros [H1 H2];
    (split; [congruence || reflexivity | assumption]).
Qed.

Lemma match_test_false (snippet : pystr) (para : paragraph) :
  ~ matches snippet para ->
  nonempty snippet && contains snippet (lower (para_text para)) = false.
Proof.
  intros H. destruct (nonempty snippet && contains snippet _) eqn:E; [|reflexivity].
  apply match_test in E. contradiction.
Qed.

Lemma unmatched_no_match (snippet : pystr) (paras : list paragraph) :
  snippet = [] \/ Forall (unmatched snippet) paras ->
  Forall (fun p => ~ matches snippet p) paras.
Proof.
  intros [-> | H].
  - apply Forall_forall. intros p _ [Hne _]. now apply Hne.
  - eapply Forall_impl; [|exact H]. intros p Hp [_ Hocc]. now apply Hp.
Qed.

Lemma mark_first_found (snippet comment stored : pystr)
      (before after : list paragraph) (para : paragraph) :
  Forall (fun p => ~ matches snippet p) before ->
  matches snippet para ->
  set_text (lit " " ++ comment) = Ok stored ->
  mark_first snippet comment (before ++ para :: after) =
  Ok (before ++ (para ++ [highlighted stored]) :: after, true).
Proof.
  intros Hbefore Hpara Hstored.
  induction Hbefore as [|q before Hq Hbefore IH]; cbn [mark_first app].
  - apply match_test in Hpara. rewrite Hpara. unfold add_run.
    now rewrite Hstored.
  - rewrite (match_test_false Hq), IH. reflexivity.
Qed.

Lemma mark_first_none (snippet comment : pystr) (paras : list paragraph) :
  Forall (fun p => ~ matches snippet p) paras ->
  mark_first snippet comment paras = Ok (paras, false).
Proof.
  intros H. induction H as [|q paras Hq _ IH]; cbn [mark_first]; [reflexivity|].
  now rewrite (match_test_false Hq), IH.
Qed.

(** What a scan that returns has done. *)
Lemma mark_first_inv (snippet comment : pystr) (paras : list paragraph)
      (r : list paragraph * bool) :
  mark_first snippet comment paras = Ok r ->
  (snd r = false /\ fst r = paras) \/
  (snd r = true /\
   exists before para after stored,
     paras = before ++ para :: after /\
     set_text (lit " " ++ comment) = Ok stored /\
     fst r = before ++ (para ++ [highlighted stored]) :: after).
Proof.
  revert r. induction paras as [|p paras IH]; intros r H; cbn [mark_first] in H.
  - injection H as <-. now left.
  - destruct (nonempty snippet && contains snippet (lower (para_text p))).
    + apply bind_Ok in H as [p' [Hp' H]]. injection H as <-.
      unfold add_run in Hp'. apply bind_Ok in Hp' as [stored [Hs Hp']].
      injection Hp' as <-. right. split; [reflexivity|].
      now exists [], p, paras, stored.
    + apply bind_Ok in H as [r0 [Hr0 H]]. injection H as <-.
      destruct (IH r0 Hr0) as [[Hf Hp] | [Ht [before [para [after [stored [Hp [Hs Hr]]]]]]]];
        cbn [fst snd].
      * left. split; [assumption | now rewrite Hp].
      * right. split; [assumption|].
        exists (p :: before), para, after, stored.
        split; [now rewrite Hp | split; [assumption | now rewrite Hr]].
Qed.

(** What a placement that returns has done. *)
Lemma place_issue_inv (d d' : docx) (issue : json) :
  place_issue d issue = Ok d' ->
  exists snippet,
    issue_snippet issue = Ok snippet /\
    ((exists stored,
        set_text (remark (suggestion_text issue)) = Ok stored /\
        d' = {| paragraphs := paragraphs d ++ [[highlighted stored]];
                tables := tables d |}) \/
     (exists before para after stored,
        paragraphs d = before ++ para :: after /\
        set_text (lit " " ++ remark (suggestion_text issue)) = Ok stored /\
        d' = {| paragraphs := before ++ (para ++ [highlighted stored]) :: after;
                tables := tables d |})).
Proof.
  unfold place_issue. intros H.
  apply bind_Ok in H as [snippet [Hs H]].
  rewrite (issue_comment_text _ Hs) in H. cbn [bind] in H.
  apply bind_Ok in H as [r [Hr H]].
  exists snippet. split; [assumption|].
  destruct (mark_first_inv _ _ _ Hr)
    as [[Hf Hp] | [Ht [before [para [after [stored [Hp [Hst Hfst]]]]]]]].
  - rewrite Hf, Hp in H. unfold add_paragraph in H. cbn [paragraphs tables] in H.
    apply bind_Ok in H as [stored [Hst H]]. injection H as <-.
    left. now exists stored.
  - rewrite Ht, Hfst in H. injection H as <-.
    right. now exists before, para, after, stored.
Qed.

Lemma annotate_docx_inline_steps (file_bytes : bytes) (doc d : docx)
      (json_review : json) (earlier later : list json) (issue : json) :
  Document file_bytes = Ok doc ->
  review_issues json_review = Ok (earlier ++ issue :: later) ->
  for_each place_issue earlier doc = Ok d ->
  annotate_docx_inline file_bytes json_review =
  (d' <- place_issue d issue ;;
   out <- for_each place_issue later d' ;;
   Ok (docx_save out)).
Proof.
  intros Hdoc Hitems Hearlier. unfold annotate_docx_inline, annotate_document.
  rewrite Hdoc, Hitems. cbn [bind]. rewrite for_each_app, Hearlier. cbn [bind for_each].
  destruct (place_issue d issue); reflexivity.
Qed.

(** C5, as the code has it: the issues are placed in the order of the
    review, each on the document the earlier ones left.  For an issue that
    is a mapping, whatever its keys and their order, whose section is a
    text (or is missing, null or empty) and whose description is a text (or
    is missing), the lookup snippet is the section, lower-cased, when the
    section is not empty, and otherwise the first 50 characters of the
    description, lower-cased.  A paragraph matches when the snippet is not
    empty and occurs in its lower-cased text.  When the remark
    " [Suggestion: <suggestion>]" holds only characters that can be put
    into a run, it becomes a new highlighted run at the end of the first
    matching paragraph, in document order, a carriage return in it read back
    as a line feed; no other paragraph changes, and the later issues go on
    from there. *)
Theorem annotate_places_on_first_match
  (file_bytes : bytes) (doc d : docx) (json_review : json)
  (earlier later : list json) (items : list (pystr * json)) (sec iss : pystr)
  (before after : list paragraph) (para : paragraph)
  (Hdoc : Document file_bytes = Ok doc)
  (Hissues : review_issues json_review = Ok (earlier ++ JObj items :: later))
  (Hearlier : for_each place_issue earlier doc = Ok d)
  (Hsec : reads_as_or_empty (assoc (lit "section") items) sec)
  (Hiss : sec = [] -> reads_as (assoc (lit "issue") items) iss)
  (Hparas : paragraphs d = before ++ para :: after)
  (Hbefore : Forall (fun p => ~ matches (snippet_from sec iss) p) before)
  (Hpara : matches (snippet_from sec iss) para)
  (Hstorable : forallb insertable
                 (lit " [Suggestion: " ++ suggestion_text (JObj items) ++ lit "]") = true) :
  let placed :=
    {| paragraphs :=
         before ++
         (para ++
          [ {| run_text :=
                 lit " [Suggestion: " ++
                 map stored_char (suggestion_text (JObj items)) ++ lit "]";
               highlight_color := Some YELLOW |} ])
         :: after;
       tables := tables d |} in
  issue_snippet (JObj items) = Ok (snippet_from sec iss) /\
  place_issue d (JObj items) = Ok placed /\
  annotate_docx_inline file_bytes json_review =
    (out <- for_each place_issue later placed ;; Ok (docx_save out)).
Proof.
  intros placed.
  pose proof (issue_snippet_reads items Hsec Hiss) as Hsnippet.
  assert (Hplace : place_issue d (JObj items) = Ok placed).
  { unfold place_issue. rewrite Hsnippet, (issue_comment_text _ Hsnippet). cbn [bind].
    rewrite Hparas.
    rewrite (mark_first_found (remark (suggestion_text (JObj items))) after
               Hbefore Hpara (set_text_Ok _ Hstorable)).
    cbn [bind fst snd]. unfold placed, highlighted.
    now rewrite !map_app. }
  split; [exact Hsnippet | split; [exact Hplace|]].
  rewrite (@annotate_docx_inline_steps file_bytes doc d json_review earlier later _
             Hdoc Hissues Hearlier), Hplace.
  reflexivity.
Qed.

(** C6, as the code has it: an issue whose snippet is empty, or occurs in no
    paragraph, and whose remark "[Suggestion: <suggestion>]" holds only
    characters that can be put into a run, gets a new last paragraph that
    holds the highlighted remark alone, a carriage return in it read back as
    a line feed; the paragraphs that were there stay as they were. *)
Theorem annotate_appends_when_unmatched
  (file_bytes : bytes) (doc d : docx) (json_review : json)
  (earlier later : list json) (issue : json) (snippet : pystr)
  (Hdoc : Document file_bytes = Ok doc)
  (Hissues : review_issues json_review = Ok (earlier ++ issue :: later))
  (Hearlier : for_each place_issue earlier doc = Ok d)
  (Hsnippet : issue_snippet issue = Ok snippet)
  (Hnone : snippet = [] \/ Forall (unmatched snippet) (paragraphs d))
  (Hstorable : forallb insertable
                 (lit "[Suggestion: " ++ suggestion_text issue ++ lit "]") = true) :
  let placed :=
    {| paragraphs :=
         paragraphs d ++
         [[ {| run_text :=
                 lit "[Suggestion: " ++
                 map stored_char (suggestion_text issue) ++ lit "]";
               highlight_color := Some YELLOW |} ]];
       tables := tables d |} in
  place_issue d issue = Ok placed /\
  firstn (length (paragraphs d)) (paragraphs placed) = paragraphs d /\
  annotate_docx_inline file_bytes json_review =
    (out <- for_each place_issue later placed ;; Ok (docx_save out)).
Proof.
  intros placed.
  assert (Hplace : place_issue d issue = Ok placed).
  { unfold place_issue. rewrite Hsnippet, (issue_comment_text _ Hsnippet). cbn [bind].
    rewrite (mark_first_none _ (unmatched_no_match Hnone)). cbn [bind fst snd].
    unfold add_paragraph, remark. rewrite (set_text_Ok _ Hstorable).
    cbn [bind paragraphs tables].
    unfold placed, highlighted. now rewrite !map_app. }
  split; [exact Hplace | split].
  - cbn [paragraphs placed]. rewrite firstn_app, Nat.sub_diag, firstn_all. cbn.
    apply app_nil_r.
  - rewrite (@annotate_docx_inline_steps file_bytes doc d json_review earlier later _
               Hdoc Hissues Hearlier), Hplace.
    reflexivity.
Qed.

Lemma mark_first_unstorable (snippet comment : pystr) (paras : list paragraph) :
  set_text (lit " " ++ comment) = Raise ->
  mark_first snippet comment paras = Raise \/
  mark_first snippet comment paras = Ok (paras, false).
Proof.
  intros H. induction paras as [|p paras IH]; cbn [mark_first]; [now right|].
  destruct (nonempty snippet && contains snippet (lower (para_text p))).
  - left. unfold add_run. now rewrite H.
  - destruct IH as [-> | ->]; [now left | now right].
Qed.

(** A remark with a character that cannot be put into a run makes the
    placement raise, on a paragraph or at the end. *)
Lemma place_issue_unstorable (d : docx) (issue : json) (snippet : pystr) :
  issue_snippet issue = Ok snippet ->
  forallb insertable (lit "[Suggestion: " ++ suggestion_text issue ++ lit "]") = false ->
  place_issue d issue = Raise.
Proof.
  intros Hs Hno. unfold place_issue.
  rewrite Hs, (issue_comment_text _ Hs). cbn [bind].
  assert (H1 : set_text (remark (suggestion_text issue)) = Raise).
  { unfold set_text, remark. now rewrite Hno. }
  assert (H2 : set_text (lit " " ++ remark (suggestion_text issue)) = Raise).
  { unfold set_text. rewrite forallb_app. unfold remark. rewrite Hno.
    now rewrite andb_false_r. }
  destruct (@mark_first_unstorable snippet _ (paragraphs d) H2) as [-> | ->];
    [reflexivity|].
  cbn [bind fst snd]. unfold add_paragraph. now rewrite H1.
Qed.

End Annotator.

(** ** What annotation keeps *)

Lemma extended_refl (p : paragraph) : extended p p.
Proof. exists []. simpl. now rewrite app_nil_r. Qed.

Lemma extended_trans (p q r : paragraph) : extended p q -> extended q r -> extended p r.
Proof.
  intros [s1 ->] [s2 ->]. exists (s1 ++ s2). now rewrite map_app, app_assoc.
Qed.

Lemma Forall2_extended_refl (ps : list paragraph) : Forall2 extended ps ps.
Proof. induction ps; constructor; [apply extended_refl | assumption]. Qed.

Lemma Forall2_extended_trans (ps qs rs : list paragraph) :
  Forall2 extended ps qs -> Forall2 extended qs rs -> Forall2 extended ps rs.
Proof.
  intros H. revert rs. induction H as [|p q ps qs Hpq _ IH]; intros rs Hr.
  - inversion Hr. constructor.
  - inversion Hr as [|? r ? rs' Hqr Hrest]; subst. constructor.
    + eapply extended_trans; eassumption.
    + now apply IH.
Qed.

Lemma grown_refl (ps : list paragraph) : grown ps ps.
Proof. exists ps, []. split; [now rewrite app_nil_r | apply Forall2_extended_refl]. Qed.

Lemma grown_trans (ps qs rs : list paragraph) : grown ps qs -> grown qs rs -> grown ps rs.
Proof.
  intros [k1 [a1 [-> H1]]] [k2 [a2 [-> H2]]].
  apply Forall2_app_inv_l in H2 as [k21 [k22 [H21 [H22 ->]]]].
  exists k21, (k22 ++ a2). split; [now rewrite app_assoc|].
  eapply Forall2_extended_trans; eassumption.
Qed.

Lemma extended_text (p p' : paragraph) :
  extended p p' ->
  exists suggestions,
    para_text p' =
      para_text p ++
      concat (map (fun s => lit " [Suggestion: " ++ s ++ lit "]") suggestions).
Proof.
  intros [suggestions ->]. exists suggestions. unfold para_text.
  rewrite map_app, concat_app, map_map. reflexivity.
Qed.

Lemma grown_kept (old new : list paragraph) : grown old new -> paragraphs_kept old new.
Proof.
  intros [kept [added [-> H]]]. split.
  - rewrite length_app, <- (Forall2_length H). lia.
  - intros n p Hn. revert n Hn.
    induction H as [|q q' old kept Hq _ IH]; intros [|n] Hn; try discriminate.
    + inversion Hn; subst. destruct (extended_text Hq) as [suggestions Ht].
      exists q', suggestions. now split.
    + simpl in Hn. destruct (IH n Hn) as [p' [suggestions [Hp' Ht]]].
      exists p', suggestions. now split.
Qed.

Section Keeping.
Context {L : PyLib} {C : Collaborators}.

Lemma place_issue_grows (d d' : docx) (issue : json) :
  place_issue d issue = Ok d' -> grown (paragraphs d) (paragraphs d').
Proof.
  intros H.
  destruct (place_issue_inv _ _ H)
    as [snippet [_ [[stored [Hs ->]] | [before [para [after [stored [Hp [Hs ->]]]]]]]]];
    cbn [paragraphs].
  - eexists (paragraphs d), _. split; [reflexivity | apply Forall2_extended_refl].
  - apply set_text_inv in Hs as [_ ->]. rewrite stored_spaced_remark, Hp.
    exists (before ++ (para ++ [highlighted
              (lit " " ++ remark (map stored_char (suggestion_text issue)))]) :: after), [].
    split; [now rewrite app_nil_r|].
    apply Forall2_extended_refl_in; [apply extended_refl|].
    exists [map stored_char (suggestion_text issue)]. reflexivity.
Qed.

Lemma for_each_place_issue_grows (items : list json) (d d' : docx) :
  for_each place_issue items d = Ok d' -> grown (paragraphs d) (paragraphs d').
Proof.
  revert d; induction items as [|issue items IH]; intros d H; simpl in H.
  - inversion H; subst. apply grown_refl.
  - apply bind_Ok in H as [d1 [H1 H2]].
    eapply grown_trans; [eapply place_issue_grows; eassumption | now apply IH].
Qed.

Lemma review_issues_absent (items : list (pystr * json)) :
  assoc (lit "issues") items = None -> review_issues (JObj items) = Ok [].
Proof. intros H. unfold review_issues, dict_get. now rewrite H. Qed.

(** C10: whatever the shape of the review, the document that comes back has
    the paragraphs of the one that was read, all of them and at their
    positions, the text of each being its original text followed by zero or
    more remarks " [Suggestion: <suggestion>]"; for a review that is a
    mapping without an 'issues' key the document comes back as it was
    read. *)
Theorem annotate_keeps_paragraphs (file_bytes : bytes) (json_review : json) :
  (forall out,
     annotate_docx_inline file_bytes json_review = Ok out ->
     exists doc doc',
       Document file_bytes = Ok doc /\ out = docx_save doc' /\
       paragraphs_kept (paragraphs doc) (paragraphs doc')) /\
  (forall doc items,
     Document file_bytes = Ok doc ->
     json_review = JObj items -> assoc (lit "issues") items = None ->
     annotate_docx_inline file_bytes json_review = Ok (docx_save doc)).
Proof.
  unfold annotate_docx_inline, annotate_document. split.
  - intros out H.
    apply bind_Ok in H as [doc [Hdoc H]].
    apply bind_Ok in H as [doc' [H Hout]].
    apply bind_Ok in H as [items [_ H]].
    exists doc, doc'. split; [assumption | split; [now inversion Hout|]].
    apply grown_kept. eapply for_each_place_issue_grows; eassumption.
  - intros doc items Hdoc -> Hno.
    now rewrite Hdoc, (review_issues_absent _ Hno).
Qed.

End Keeping.

(** ** The run *)

Section Run.
Context {L : PyLib} {C : Collaborators}.

Lemma report_issue_tagged (doc_type : pystr) (i : json) :
  is_mapping i -> report_issue doc_type i = Ok (tagged doc_type i).
Proof. intros [items ->]. reflexivity. Qed.

Lemma report_issue_mapping (doc_type : pystr) (i t : json) :
  report_issue doc_type i = Ok t -> is_mapping i.
Proof. destruct i; try discriminate. intros _. now eexists. Qed.

Lemma comprehension_report_issue (doc_type : pystr) (items tg : list json) :
  comprehension (report_issue doc_type) items = Ok tg <->
  Forall is_mapping items /\ tg = map (tagged doc_type) items.
Proof.
  revert tg; induction items as [|i items IH]; intros tg; simpl.
  - split.
    + intros H. injection H as <-. split; [constructor | reflexivity].
    + intros [_ ->]. reflexivity.
  - split.
    + intros H. apply bind_Ok in H as [t [Ht H]].
      apply bind_Ok in H as [ts [Hts H]]. injection H as <-.
      pose proof (report_issue_mapping _ _ Ht) as Hi.
      rewrite (report_issue_tagged doc_type Hi) in Ht. injection Ht as <-.
      apply IH in Hts as [Hall ->]. split; [now constructor | reflexivity].
    + intros [Hall ->]. inversion Hall as [|? ? Hi Hrest]; subst.
      rewrite (report_issue_tagged doc_type Hi). cbn [bind].
      rewrite (proj2 (IH _) (conj Hrest eq_refl)). reflexivity.
Qed.

Lemma review_one_document (db : vectordb) (st st' : run_state) (kd : nat * upload) :
  review_one db st kd = Ok st' <->
  exists r, document_review db kd r /\ st' = extend st [kd] [r].
Proof.
  destruct kd as [k f]. unfold review_one, document_review, extend, flattened.
  cbn [fst snd map combine concat]. split.
  - intros H.
    apply bind_Ok in H as [text [Htext H]].
    apply bind_Ok in H as [review_json [Hrev H]].
    apply bind_Ok in H as [items [Hitems H]].
    apply bind_Ok in H as [tg [Htg H]].
    apply bind_Ok in H as [reviewed_bytes [Hann H]].
    injection H as <-.
    apply comprehension_report_issue in Htg as [Hall ->].
    exists {| r_type := classify_document (Some text); r_items := items;
              r_bytes := reviewed_bytes |}.
    cbn [r_type r_items r_bytes]. split.
    + exists text, review_json. repeat split; assumption.
    + now rewrite app_nil_r.
  - intros [r [[text [review_json [Htext [Hty [Hrev [Hitems [Hall Hann]]]]]]] ->]].
    rewrite Htext. cbn [bind]. rewrite <- Hty, Hrev. cbn [bind].
    rewrite Hitems. cbn [bind].
    rewrite (proj2 (comprehension_report_issue (r_type r) (r_items r) _)
                   (conj Hall eq_refl)).
    cbn [bind]. rewrite Hann. cbn [bind]. now rewrite app_nil_r.
Qed.

Lemma extend_cons (st : run_state) (kd : nat * upload) (r : reviewed)
      (kds : list (nat * upload)) (rs : list reviewed) :
  extend (extend st [kd] [r]) kds rs = extend st (kd :: kds) (r :: rs).
Proof.
  unfold extend, flattened. cbn [detected_types all_issues reviewed_files map combine concat].
  rewrite !app_nil_r, <- !app_assoc. reflexivity.
Qed.

Lemma for_each_review_one (db : vectordb) (kds : list (nat * upload))
      (st st' : run_state) :
  for_each (review_one db) kds st = Ok st' <->
  exists rs, Forall2 (document_review db) kds rs /\ st' = extend st kds rs.
Proof.
  revert st; induction kds as [|kd kds IH]; intros st; simpl.
  - split.
    + intros H. injection H as <-. exists []. split; [constructor|].
      destruct st. unfold extend, flattened. cbn. now rewrite !app_nil_r.
    + intros [rs [H ->]]. inversion H; subst.
      destruct st. unfold extend, flattened. cbn. now rewrite !app_nil_r.
  - split.
    + intros H. apply bind_Ok in H as [st1 [H1 H]].
      apply review_one_document in H1 as [r [Hr ->]].
      apply IH in H as [rs [Hrs ->]].
      exists (r :: rs). split; [now constructor | apply extend_cons].
    + intros [rs [H ->]]. inversion H as [|? r ? rs' Hr Hrs]; subst.
      rewrite (proj2 (review_one_document db st _ kd)
                     (ex_intro _ r (conj Hr eq_refl))).
      cbn [bind]. apply IH. exists rs'. split; [assumption|].
      symmetry. apply extend_cons.
Qed.

(** C7: a run ends with a report exactly when both kinds of upload are
    there, the index is built, and every stage returns on every candidate
    document, taken in upload order; the issues of the report are then the
    issues of the first document in the reviewer's order, then those of the
    second, and so on, each with the classified type of its document in its
    'document' field. *)
Theorem run_review_flattens_in_order
  (pdf_files docx_files : list upload) (res : results) :
  run_review pdf_files docx_files = Ok (Some res) <->
  pdf_files <> [] /\ docx_files <> [] /\
  exists db rs required_docs,
    ingest_pdfs_to_faiss (map content pdf_files) = Ok db /\
    assoc (lit "Company Incorporation") ADGM_CHECKLISTS = Some required_docs /\
    Forall2 (document_review db)
            (combine (seq 0 (length docx_files)) docx_files) rs /\
    issues_found (output_json res) = flattened rs /\
    res = {| output_json :=
               {| process := lit "Company Incorporation";
                  documents_uploaded := length docx_files;
                  required_documents := length required_docs;
                  missing_document :=
                    missing_document_of required_docs (map r_type rs);
                  issues_found := flattened rs |};
             results_reviewed_files :=
               map (fun p => (name (snd (fst p)), r_bytes (snd p)))
                   (combine (combine (seq 0 (length docx_files)) docx_files) rs) |}.
Proof.
  unfold run_review. split.
  - intros H.
    destruct pdf_files as [|pf pdf_files]; [discriminate|].
    destruct docx_files as [|df docx_files]; [discriminate|].
    cbn [length Nat.eqb orb] in H.
    apply bind_Ok in H as [db [Hdb H]].
    apply bind_Ok in H as [required_docs [Hreq H]].
    apply bind_Ok in H as [st [Hst H]].
    injection H as <-.
    apply for_each_review_one in Hst as [rs [Hrs ->]].
    split; [discriminate | split; [discriminate|]].
    exists db, rs, required_docs. repeat split; try assumption.
    cbn in Hreq. injection Hreq as <-. reflexivity.
  - intros [Hp [Hd [db [rs [required_docs [Hdb [Hreq [Hrs [_ ->]]]]]]]]].
    destruct pdf_files as [|pf pdf_files]; [congruence|].
    destruct docx_files as [|df docx_files]; [congruence|].
    cbn [length Nat.eqb orb]. rewrite Hdb. cbn [bind].
    cbn in Hreq. injection Hreq as <-. cbn [assoc str_eqb bind].
    rewrite (proj2 (for_each_review_one db _ _ _) (ex_intro _ rs (conj Hrs eq_refl))).
    reflexivity.
Qed.

End Run.

(** ** Concrete runs on the reference runtime *)

(** *** The reference decoder *)

Example loads_objects :
  Reference.loads (qlit " {'a':[1,2 , {'b':null}], 'a':true} ") =
    Some (JObj [ (lit "a", JBool true) ]) /\
  Reference.loads (qlit "{'a':-0}") = Some (JObj [ (lit "a", JInt 0) ]) /\
  Reference.loads (qlit "{}") = Some (JObj []).
Proof. repeat split. Qed.

Example loads_rejects :
  Reference.loads (qlit "{'a':01}") = None /\
  Reference.loads (qlit "{'a':1,}") = None /\
  Reference.loads (qlit "{'a':'}") = None /\
  Reference.loads (lit "no json here") = None.
Proof. repeat split. Qed.

(** *** The cases the specification lists *)

Example classify_precedence :
  classify_document (L := Reference.lib)
    (Some (lit "The MEMORANDUM and the Articles")) = lit "Articles of Association".
Proof. reflexivity. Qed.

Example classify_no_keyword :
  classify_document (L := Reference.lib) (Some (lit "no keywords here")) =
    lit "Unknown Document Type".
Proof. reflexivity. Qed.

Example extract_json_inside_prose :
  _extract_json_from_text (L := Reference.lib)
    (qlit "blah blah {'document':'X','issues':[]} trailing") =
    Ok (JObj [ (lit "document", JStr (lit "X")); (lit "issues", JArr []) ]).
Proof. reflexivity. Qed.

Example extract_json_no_braces :
  _extract_json_from_text (L := Reference.lib) (lit "no braces here") = Ok (JObj []).
Proof. reflexivity. Qed.

Example extract_json_unbalanced :
  _extract_json_from_text (L := Reference.lib) (lit "{ unbalanced") = Ok (JObj []).
Proof. reflexivity. Qed.

(** A closing brace inside a quoted text ends the span early, and what is
    cut there does not decode. *)
Example extract_json_brace_in_text :
  slice (qlit "{'a': '}'}") 0 8 = qlit "{'a': '}" /\
  _extract_json_from_text (L := Reference.lib) (qlit "{'a': '}'}") = Ok (JObj []).
Proof. split; reflexivity. Qed.

Example missing_none :
  missing_document_of
    [lit "A"; lit "B"; lit "C"; lit "D"; lit "E"]
    [lit "E"; lit "A"; lit "D"; lit "B"; lit "C"] = None.
Proof. reflexivity. Qed.

Example missing_B :
  missing_document_of
    [lit "A"; lit "B"; lit "C"; lit "D"; lit "E"]
    [lit "A"; lit "C"; lit "D"; lit "E"] = Some (lit "B").
Proof. reflexivity. Qed.

(** *** The audit and the review *)

Lemma missing_document_first_absent_witness :
  let required := [lit "A"; lit "B"; lit "C"; lit "D"; lit "E"] in
  let detected := [lit "A"; lit "C"; lit "D"; lit "E"; lit "C"] in
  match missing_document_of required detected with
  | Some d =>
      exists before after,
        required = before ++ d :: after /\
        Forall (fun x => In x detected) before /\ ~ In d detected
  | None => Forall (fun x => In x detected) required
  end /\
  (missing_document_of required detected = None <->
   Forall (fun x => In x detected) required) /\
  missing_document_of required (rev detected) = missing_document_of required detected.
Proof.
  apply (@missing_document_first_absent
           [lit "A"; lit "B"; lit "C"; lit "D"; lit "E"]
           [lit "A"; lit "C"; lit "D"; lit "E"; lit "C"]
           (rev [lit "A"; lit "C"; lit "D"; lit "E"; lit "C"])).
  apply Permutation_rev.
Defined.

(** A response whose JSON has no 'issues' field comes back unchanged. *)
Lemma run_rag_review_without_issues :
  let resp := qlit "Here is the review: {'document': 'X'}" in
  let parsed := JObj [ (lit "document", JStr (lit "X")) ] in
  @run_rag_review Reference.lib (fun _ => Ok resp)
     (lit "Articles of Association") (lit "articles of association") = Ok parsed /\
  has_field parsed (lit "issues") = false /\
  parsed <> synthesized (lit "Articles of Association").
Proof. cbv zeta. split; [reflexivity | split; [reflexivity | discriminate]]. Qed.

Lemma run_rag_review_synthesizes_when_empty_witness :
  exists parsed,
    @_extract_json_from_text Reference.lib (lit "no json here") = Ok parsed /\
    @run_rag_review Reference.lib (fun _ => Ok (lit "no json here"))
       (lit "UBO Declaration Form") (lit "ubo declaration") =
      Ok (if truthy parsed then parsed else synthesized (lit "UBO Declaration Form")) /\
    truthy (if truthy parsed then parsed
            else synthesized (lit "UBO Declaration Form")) = true /\
    has_field (synthesized (lit "UBO Declaration Form")) (lit "issues") = true.
Proof.
  apply (@run_rag_review_synthesizes_when_empty Reference.lib
           (fun _ => Ok (lit "no json here"))
           (lit "UBO Declaration Form") (lit "ubo declaration") (lit "no json here")).
  reflexivity.
Defined.

(** *** Placement *)

(** A remark that cannot be stored, a remark that is not stored as it is,
    and issues of another shape.  With a backspace in the suggestion the
    paragraph matches and putting the remark into it raises; with a carriage
    return the run that is added reads with a line feed; on an issue that is
    a text, on a section that is a number and on a description that is a
    number the placement raises before any paragraph is looked at. *)
Lemma annotate_matched_remark_not_appended :
  (exists review,
     Reference.loads
       (qlit "{'issues': [{'section': 'Directors', 'suggestion': 'Add\bsignature'}]}") =
       Some review /\
     review = Sample.issues_of
                [JObj [ (lit "section", JStr (lit "Directors"));
                        (lit "suggestion", JStr (lit "Add" ++ [8%N] ++ lit "signature")) ]] /\
     annotate_docx_inline (L := Reference.lib) (C := Reference.collaborators [])
       Sample.two_sections review = Raise) /\
  (exists review,
     Reference.loads
       (qlit "{'issues': [{'section': 'Directors', 'suggestion': 'Sign\rhere'}]}") =
       Some review /\
     review = Sample.issues_of
                [JObj [ (lit "section", JStr (lit "Directors"));
                        (lit "suggestion", JStr (lit "Sign" ++ [13%N] ++ lit "here")) ]] /\
     annotate_document (L := Reference.lib) (C := Reference.collaborators [])
       Sample.two_sections_doc review =
       Ok {| paragraphs :=
               [ Sample.capital;
                 Sample.directors ++
                 [ {| run_text := lit " [Suggestion: Sign" ++ [10%N] ++ lit "here]";
                      highlight_color := Some YELLOW |} ] ];
             tables := [] |} /\
     lit " [Suggestion: Sign" ++ [10%N] ++ lit "here]" <>
     lit " [Suggestion: " ++ (lit "Sign" ++ [13%N] ++ lit "here") ++ lit "]") /\
  (exists review,
     Reference.loads (qlit "{'issues': ['No signature block']}") = Some review /\
     review = Sample.issues_of [JStr (lit "No signature block")] /\
     annotate_docx_inline (L := Reference.lib) (C := Reference.collaborators [])
       Sample.two_sections review = Raise) /\
  (exists review,
     Reference.loads (qlit "{'issues': [{'section': 2, 'suggestion': 'Add signature'}]}") =
       Some review /\
     review = Sample.issues_of
                [JObj [ (lit "section", JInt 2);
                        (lit "suggestion", JStr (lit "Add signature")) ]] /\
     annotate_docx_inline (L := Reference.lib) (C := Reference.collaborators [])
       Sample.two_sections review = Raise) /\
  (exists review,
     Reference.loads (qlit "{'issues': [{'issue': 2, 'suggestion': 'Add signature'}]}") =
       Some review /\
     review = Sample.issues_of
                [JObj [ (lit "issue", JInt 2);
                        (lit "suggestion", JStr (lit "Add signature")) ]] /\
     annotate_docx_inline (L := Reference.lib) (C := Reference.collaborators [])
       Sample.two_sections review = Raise).
Proof.
  split; [|split; [|split; [|split]]]; eexists; repeat split; try reflexivity.
  vm_compute. discriminate.
Qed.

Lemma annotate_places_on_first_match_witness :
  let placed :=
    {| paragraphs :=
         [Sample.capital] ++
         (Sample.directors ++
          [ {| run_text :=
                 lit " [Suggestion: " ++
                 map stored_char
                     (suggestion_text (L := Reference.lib) (JObj Sample.keyed_issue)) ++
                 lit "]";
               highlight_color := Some YELLOW |} ])
         :: [];
       tables := tables Sample.two_sections_doc |} in
  issue_snippet (L := Reference.lib) (JObj Sample.keyed_issue) =
    Ok (snippet_from (L := Reference.lib) (lit "DIRECTORS") []) /\
  place_issue (L := Reference.lib) (C := Reference.collaborators [])
    Sample.two_sections_doc (JObj Sample.keyed_issue) = Ok placed /\
  annotate_docx_inline (L := Reference.lib) (C := Reference.collaborators [])
    Sample.two_sections (Sample.issues_of [JObj Sample.keyed_issue]) =
    (out <- for_each (place_issue (L := Reference.lib) (C := Reference.collaborators []))
              [] placed ;;
     Ok (Reference.write_document out)).
Proof.
  apply (@annotate_places_on_first_match Reference.lib (Reference.collaborators [])
           Sample.two_sections Sample.two_sections_doc Sample.two_sections_doc
           (Sample.issues_of [JObj Sample.keyed_issue])
           [] [] Sample.keyed_issue (lit "DIRECTORS") []
           [Sample.capital] [] Sample.directors).
  - reflexivity.
  - reflexivity.
  - reflexivity.
  - left. left. reflexivity.
  - intros H. discriminate H.
  - reflexivity.
  - repeat constructor. intros [_ H]. apply contains_occurs in H.
    vm_compute in H. discriminate H.
  - split; [vm_compute; discriminate | apply contains_occurs; vm_compute; reflexivity].
  - vm_compute. reflexivity.
Defined.

(** An unmatched issue whose remark cannot be stored, and one whose remark
    is not stored as it is. *)
Lemma annotate_unmatched_remark_not_appended :
  (exists review,
     Reference.loads
       (qlit "{'issues': [{'section': 'Shareholders', 'suggestion': 'a\bb'}]}") =
       Some review /\
     review = Sample.issues_of
                [JObj [ (lit "section", JStr (lit "Shareholders"));
                        (lit "suggestion", JStr [97%N; 8%N; 98%N]) ]] /\
     annotate_docx_inline (L := Reference.lib) (C := Reference.collaborators [])
       Sample.two_sections review = Raise) /\
  (exists review,
     Reference.loads
       (qlit "{'issues': [{'section': 'Shareholders', 'suggestion': 'a\rb'}]}") =
       Some review /\
     review = Sample.issues_of
                [JObj [ (lit "section", JStr (lit "Shareholders"));
                        (lit "suggestion", JStr [97%N; 13%N; 98%N]) ]] /\
     annotate_document (L := Reference.lib) (C := Reference.collaborators [])
       Sample.two_sections_doc review =
       Ok {| paragraphs :=
               [ Sample.capital; Sample.directors;
                 [ {| run_text := lit "[Suggestion: a" ++ [10%N] ++ lit "b]";
                      highlight_color := Some YELLOW |} ] ];
             tables := [] |} /\
     lit "[Suggestion: a" ++ [10%N] ++ lit "b]" <>
     lit "[Suggestion: " ++ [97%N; 13%N; 98%N] ++ lit "]").
Proof.
  split; eexists; repeat split; try reflexivity.
  vm_compute. discriminate.
Qed.

Lemma annotate_appends_when_unmatched_witness :
  let placed :=
    {| paragraphs :=
         paragraphs Sample.two_sections_doc ++
         [[ {| run_text :=
                 lit "[Suggestion: " ++
                 map stored_char
                     (suggestion_text (L := Reference.lib)
                        (issue_json Sample.on_shareholders)) ++
                 lit "]";
               highlight_color := Some YELLOW |} ]];
       tables := tables Sample.two_sections_doc |} in
  place_issue (L := Reference.lib) (C := Reference.collaborators [])
    Sample.two_sections_doc (issue_json Sample.on_shareholders) = Ok placed /\
  firstn (length (paragraphs Sample.two_sections_doc)) (paragraphs placed) =
    paragraphs Sample.two_sections_doc /\
  annotate_docx_inline (L := Reference.lib) (C := Reference.collaborators [])
    Sample.two_sections (Sample.review_of [issue_json Sample.on_shareholders]) =
    (out <- for_each (place_issue (L := Reference.lib) (C := Reference.collaborators []))
              [] placed ;;
     Ok (Reference.write_document out)).
Proof.
  apply (@annotate_appends_when_unmatched Reference.lib (Reference.collaborators [])
           Sample.two_sections Sample.two_sections_doc Sample.two_sections_doc
           (Sample.review_of [issue_json Sample.on_shareholders])
           [] [] (issue_json Sample.on_shareholders) (lit "shareholders")).
  - reflexivity.
  - reflexivity.
  - reflexivity.
  - reflexivity.
  - right. repeat constructor; apply contains_false; vm_compute; reflexivity.
  - vm_compute. reflexivity.
Defined.

(** *** Reviews of any shape *)

Lemma annotate_keeps_paragraphs_witness :
  exists doc doc',
    Reference.read_document Sample.two_sections = Ok doc /\
    Reference.to_bytes
      (lit "Section 1: Capital" ++ [NEWLINE] ++
       lit "Section 2: Directors [Suggestion: Add signature]" ++ [NEWLINE] ++
       lit "[Suggestion: Add signature]") = Reference.write_document doc' /\
    paragraphs_kept (paragraphs doc) (paragraphs doc').
Proof.
  apply (proj1 (@annotate_keeps_paragraphs Reference.lib (Reference.collaborators [])
                  Sample.two_sections
                  (Sample.review_of [issue_json Sample.on_directors;
                                     issue_json Sample.bare_suggestion]))).
  reflexivity.
Defined.

(** *** A run on two documents *)

Lemma run_review_flattens_in_order_witness :
  exists res,
    run_review (L := Reference.lib) (C := Reference.collaborators Sample.responses)
      [Sample.reference_pdf] [Sample.articles; Sample.memorandum] = Ok (Some res) /\
    issues_found (output_json res) =
      [ tagged (lit "Articles of Association")
          (JObj [ (lit "section", JStr (lit "Directors"));
                  (lit "issue", JStr (lit "No signature"));
                  (lit "severity", JStr (lit "High"));
                  (lit "suggestion", JStr (lit "Add signature")) ]);
        tagged (lit "Articles of Association")
          (JObj [ (lit "issue", JStr (lit "No date"));
                  (lit "suggestion", JStr (lit "Add date")) ]);
        tagged (lit "Memorandum of Association")
          (JObj [ (lit "section", JStr (lit "Memorandum"));
                  (lit "suggestion", JStr (lit "Cite the regulations")) ]) ] /\
    exists rs,
      issues_found (output_json res) = flattened rs /\
      map r_type rs = [lit "Articles of Association"; lit "Memorandum of Association"].
Proof.
  eexists. split; [vm_compute; reflexivity|]. split; [vm_compute; reflexivity|].
  match goal with
  | |- context [output_json ?r] =>
      destruct (proj1 (@run_review_flattens_in_order Reference.lib
                         (Reference.collaborators Sample.responses)
                         [Sample.reference_pdf] [Sample.articles; Sample.memorandum] r)
                      eq_refl)
        as [_ [_ [db [rs [required_docs [_ [_ [Hrs [Hflat Hres]]]]]]]]]
  end.
  exists rs. split; [exact Hflat|].
  inversion Hrs as [|kd1 r1 ? rs1 H1 Hrs1]; subst.
  inversion Hrs1 as [|kd2 r2 ? rs2 H2 Hrs2]; subst.
  inversion Hrs2; subst.
  destruct H1 as [t1 [j1 [E1 [T1 _]]]]. destruct H2 as [t2 [j2 [E2 [T2 _]]]].
  cbn [map]. rewrite T1, T2.
  vm_compute in E1. vm_compute in E2. injection E1 as <-. injection E2 as <-.
  vm_compute. reflexivity.
Defined.

(** ** Further properties of the text extractor and the classifier *)

Lemma occurs_trans (a b t : pystr) : occurs a b -> occurs b t -> occurs a t.
Proof.
  intros [p1 [q1 ->]] [p2 [q2 ->]]. exists (p2 ++ p1), (q1 ++ q2).
  now rewrite <- !app_assoc.
Qed.

Lemma occurs_refl (t : pystr) : occurs t t.
Proof. exists [], []. simpl. now rewrite app_nil_r. Qed.

Lemma occurs_app_l (k a b : pystr) : occurs k a -> occurs k (a ++ b).
Proof.
  intros [p [q ->]]. exists p, (q ++ b). now rewrite <- !app_assoc.
Qed.

Lemma occurs_app_r (k a b : pystr) : occurs k b -> occurs k (a ++ b).
Proof.
  intros [p [q ->]]. exists (a ++ p), q. now rewrite <- !app_assoc.
Qed.

Lemma In_join_occurs (sep p : pystr) (parts : list pystr) :
  In p parts -> occurs p (join sep parts).
Proof.
  induction parts as [|q parts IH]; [intros []|].
  intros [->|Hin].
  - destruct parts; [apply occurs_refl | apply occurs_app_l, occurs_refl].
  - destruct parts as [|r parts]; [destruct Hin|].
    change (join sep (q :: r :: parts)) with (q ++ sep ++ join sep (r :: parts)).
    now apply occurs_app_r, occurs_app_r, IH.
Qed.

Section TextExtraction.
Context {L : PyLib} {C : Collaborators}.

Lemma In_stripped_parts (t : pystr) (texts : list pystr) :
  In t texts -> str_strip t <> [] -> In (str_strip t) (stripped_parts texts).
Proof.
  intros Hin Hne. unfold stripped_parts. apply in_map, filter_In.
  split; [assumption|]. unfold nonempty.
  destruct (str_strip t); [congruence | reflexivity].
Qed.

Lemma stripped_parts_blank (texts : list pystr) :
  Forall (fun t => str_strip t = []) texts -> stripped_parts texts = [].
Proof.
  intros H. unfold stripped_parts.
  induction H as [|t texts Ht _ IH]; [reflexivity|].
  cbn [filter]. rewrite Ht. exact IH.
Qed.

(** X1: no text of the document is lost: every paragraph and every table
    cell whose stripped text is not empty has that stripped text somewhere
    in the extracted text. *)
Theorem extract_text_keeps_every_part (file_bytes : bytes) (doc : docx)
  (Hdoc : Document file_bytes = Ok doc) :
  exists text,
    extract_text_from_docx_bytes file_bytes = Ok text /\
    (forall p, In p (paragraphs doc) -> str_strip (para_text p) <> [] ->
               occurs (str_strip (para_text p)) text) /\
    (forall table row cell,
       In table (tables doc) -> In row table -> In cell row ->
       str_strip cell <> [] -> occurs (str_strip cell) text).
Proof.
  unfold extract_text_from_docx_bytes. rewrite Hdoc. cbn [bind].
  eexists. split; [reflexivity|]. split.
  - intros p Hp Hne. apply In_join_occurs, in_or_app. left.
    apply In_stripped_parts; [now apply in_map | assumption].
  - intros table row cell Ht Hr Hc Hne. apply In_join_occurs, in_or_app. right.
    apply In_stripped_parts; [|assumption].
    apply in_concat. exists (concat table). split.
    + apply in_map_iff. now exists table.
    + apply in_concat. now exists row.
Qed.

(** X2: a document all of whose paragraphs and cells are blank, and so a
    document without paragraphs and tables, has the empty text, and its
    type is "Unknown Document Type". *)
Theorem extract_text_blank_document (file_bytes : bytes) (doc : docx)
  (Hdoc : Document file_bytes = Ok doc)
  (Hparas : Forall (fun p => str_strip (para_text p) = []) (paragraphs doc))
  (Hcells : Forall (Forall (Forall (fun c => str_strip c = []))) (tables doc)) :
  extract_text_from_docx_bytes file_bytes = Ok [] /\
  (text <- extract_text_from_docx_bytes file_bytes ;;
   Ok (classify_document (Some text))) = Ok (lit "Unknown Document Type").
Proof.
  assert (H : extract_text_from_docx_bytes file_bytes = Ok []).
  { unfold extract_text_from_docx_bytes. rewrite Hdoc. cbn [bind].
    rewrite !stripped_parts_blank; [reflexivity | |].
    - apply Forall_concat, Forall_map.
      eapply Forall_impl; [|exact Hcells]. intros table Ht. now apply Forall_concat.
    - now apply Forall_map. }
  split; [exact H | now rewrite H].
Qed.

End TextExtraction.

Section ClassifierRange.
Context {L : PyLib}.

Lemma lower_app_ascii (a b : pystr) :
  forallb is_ascii (a ++ b) = true -> lower (a ++ b) = lower a ++ lower b.
Proof.
  intros H. unfold lower. rewrite H.
  rewrite forallb_app in H. apply andb_true_iff in H as [-> ->].
  apply map_app.
Qed.

(** X3: the classifier returns one of the five labels of the keyword table
    or the sentinel, on a text and on [None]; it returns the sentinel exactly
    when no keyword of the table occurs in the lower-cased text. *)
Theorem classify_document_range (text : pystr) :
  (forall t, In (classify_document t)
                (lit "Unknown Document Type" :: map fst DOC_TYPE_KEYWORDS)) /\
  (classify_document (Some text) = lit "Unknown Document Type" <->
   Forall (silent (lower text)) DOC_TYPE_KEYWORDS).
Proof.
  assert (Hrange : forall t : pystr,
             In (classify_loop t DOC_TYPE_KEYWORDS)
                (UNKNOWN :: map fst DOC_TYPE_KEYWORDS)).
  { intros t.
    destruct (classify_loop_first t DOC_TYPE_KEYWORDS)
      as [[before [d [ks [after [Ht [_ [_ Hc]]]]]]] | [_ Hc]]; rewrite Hc.
    - right. rewrite Ht, map_app. apply in_or_app. right. now left.
    - now left. }
  split.
  - intros [t|]; [rewrite classify_document_loop|]; apply Hrange.
  - rewrite classify_document_loop.
    destruct (classify_loop_first (lower text) DOC_TYPE_KEYWORDS)
      as [[before [d [ks [after [Ht [Hb [Hk Hc]]]]]]] | [Hall Hc]].
    + split.
      * intros Hu. exfalso. rewrite Hc in Hu. subst d.
        assert (Hin : In (lit "Unknown Document Type") (map fst DOC_TYPE_KEYWORDS)).
        { rewrite Ht, map_app. apply in_or_app. right. now left. }
        cbn in Hin. repeat (destruct Hin as [Hin|Hin]; [discriminate|]). exact Hin.
      * intros Hall. exfalso. rewrite Ht in Hall.
        apply Forall_app in Hall as [_ Hall]. inversion Hall as [|? ? Hs _]; subst.
        unfold silent in Hs. cbn [snd] in Hs.
        apply Exists_exists in Hk as [k [Hin Hk]].
        rewrite Forall_forall in Hs. exact (Hs k Hin Hk).
    + split; [intros _; exact Hall | intros _; exact Hc].
Qed.

(** X4: of the three keywords of each of the first two labels the longest
    decides nothing: a text is of type "Articles of Association" exactly when
    its lower-cased form contains "aoa" or "articles", and of type
    "Memorandum of Association" exactly when it contains neither and contains
    "moa" or "memorandum". *)
Theorem classify_document_short_keywords (text : pystr) :
  let t := lower text in
  let articles := occurs (lit "aoa") t \/ occurs (lit "articles") t in
  (classify_document (Some text) = lit "Articles of Association" <-> articles) /\
  (classify_document (Some text) = lit "Memorandum of Association" <->
   ~ articles /\ (occurs (lit "moa") t \/ occurs (lit "memorandum") t)).
Proof.
  cbv zeta. rewrite classify_document_loop.
  set (t := lower text).
  assert (Ha : contains (lit "articles of association") t = true ->
               contains (lit "articles") t = true).
  { intros H. apply contains_occurs. apply contains_occurs in H.
    refine (occurs_trans _ H). exists [], (lit " of association"). reflexivity. }
  assert (Hm : contains (lit "memorandum of association") t = true ->
               contains (lit "memorandum") t = true).
  { intros H. apply contains_occurs. apply contains_occurs in H.
    refine (occurs_trans _ H). exists [], (lit " of association"). reflexivity. }
  rewrite <- !contains_occurs.
  cbn [classify_loop DOC_TYPE_KEYWORDS existsb].
  destruct (contains (lit "articles of association") t);
    destruct (contains (lit "aoa") t);
    destruct (contains (lit "articles") t);
    try (specialize (Ha eq_refl); discriminate Ha);
    cbn [orb];
    try (split; split; [tauto | tauto | discriminate | intros [H _]; exfalso; tauto]).
  destruct (contains (lit "memorandum of association") t);
    destruct (contains (lit "moa") t);
    destruct (contains (lit "memorandum") t);
    try (specialize (Hm eq_refl); discriminate Hm);
    cbn [orb];
    try (split; split;
         [discriminate | intros [H|H]; discriminate H
         | intros _; split; [intros [H|H]; discriminate H | tauto]
         | reflexivity]).
  cbn [orb].
  split; split;
    try (intros [H|H]; discriminate H);
    try (intros [_ [H|H]]; discriminate H);
    repeat match goal with
           | |- context [contains ?k t] => destruct (contains k t)
           end;
    vm_compute; discriminate.
Qed.

Lemma classify_loop_earlier (t1 t2 : pystr) (before after : list (pystr * list pystr))
      (d : pystr) (keys : list pystr) :
  (forall k, occurs k t1 -> occurs k t2) ->
  Exists (fun k => occurs k t1) keys ->
  In (classify_loop t2 (before ++ (d, keys) :: after)) (map fst before ++ [d]).
Proof.
  intros Hsub Hk. induction before as [|[d0 ks0] before IH]; cbn [app classify_loop map fst].
  - assert (E : existsb (fun k => contains k t2) keys = true).
    { apply existsb_contains. apply Exists_exists in Hk as [k [Hin Hk]].
      apply Exists_exists. exists k. split; [assumption | now apply Hsub]. }
    rewrite E. now left.
  - destruct (existsb (fun k => contains k t2) ks0); [now left | right; exact IH].
Qed.

(** X5: on ASCII text, putting a text inside a longer one never loses its
    type: when a text has one of the five types, a text that contains it has
    that type or one declared earlier in the keyword table, and never
    "Unknown Document Type". *)
Theorem classify_document_embedded (pre text post : pystr)
  (Hascii : forallb is_ascii (pre ++ text ++ post) = true)
  (Hknown : classify_document (Some text) <> lit "Unknown Document Type") :
  exists before keys after,
    DOC_TYPE_KEYWORDS = before ++ (classify_document (Some text), keys) :: after /\
    In (classify_document (Some (pre ++ text ++ post)))
       (map fst before ++ [classify_document (Some text)]) /\
    classify_document (Some (pre ++ text ++ post)) <> lit "Unknown Document Type".
Proof.
  rewrite !classify_document_loop in *.
  destruct (classify_loop_first (lower text) DOC_TYPE_KEYWORDS)
    as [[before [d [ks [after [Ht [_ [Hk Hc]]]]]]] | [_ Hc]];
    [|exfalso; apply Hknown; exact Hc].
  rewrite Hc. exists before, ks, after. split; [exact Ht|].
  assert (Hin : In (classify_loop (lower (pre ++ text ++ post)) DOC_TYPE_KEYWORDS)
                   (map fst before ++ [d])).
  { rewrite Ht. apply classify_loop_earlier with (t1 := lower text); [|exact Hk].
    intros k Hocc. rewrite lower_app_ascii by exact Hascii.
    rewrite forallb_app in Hascii. apply andb_true_iff in Hascii as [_ Hascii].
    rewrite lower_app_ascii by exact Hascii.
    now apply occurs_app_r, occurs_app_l. }
  split; [exact Hin|].
  intros Hu. rewrite Hu in Hin.
  assert (Hall : In (lit "Unknown Document Type") (map fst DOC_TYPE_KEYWORDS)).
  { rewrite Ht, map_app. cbn [map fst]. apply in_app_or in Hin as [Hin|Hin].
    - apply in_or_app. now left.
    - apply in_or_app. right. destruct Hin as [<-|[]]. now left. }
  cbn in Hall. repeat (destruct Hall as [Hall|Hall]; [discriminate|]). exact Hall.
Qed.

End ClassifierRange.

(** ** Further properties of the JSON extraction *)

Lemma In_firstn_In {A} (x : A) (n : nat) (l : list A) : In x (firstn n l) -> In x l.
Proof.
  revert l; induction n as [|n IH]; intros [|a l]; simpl; try tauto.
  intros [->|H]; [now left | right; now apply IH].
Qed.

Lemma In_skipn_In {A} (x : A) (n : nat) (l : list A) : In x (skipn n l) -> In x l.
Proof.
  revert l; induction n as [|n IH]; intros [|a l]; simpl; try tauto.
  intros H. right. now apply IH.
Qed.

Lemma In_slice_In (c : N) (text : pystr) (a b : nat) : In c (slice text a b) -> In c text.
Proof. unfold slice. intros H. eapply In_skipn_In, In_firstn_In, H. Qed.

Lemma skipn_nth_error {A} (l : list A) (n : nat) (x : A) :
  nth_error l n = Some x -> exists rest, skipn n l = x :: rest.
Proof.
  revert l; induction n as [|n IH]; intros [|a l] H; simpl in *; try discriminate.
  - inversion H. now eexists.
  - now apply IH.
Qed.

Lemma slice_inside (pre span post : pystr) (n : nat) :
  (n <= length span)%nat ->
  slice (pre ++ span ++ post) (length pre) (length pre + n) = slice span 0 n.
Proof.
  intros Hn. unfold slice.
  replace (length pre + n - length pre)%nat with n by lia.
  rewrite skipn_app, skipn_all, Nat.sub_diag, Nat.sub_0_r. cbn [app skipn].
  rewrite firstn_app. replace (n - length span)%nat with 0%nat by lia.
  cbn [firstn]. apply app_nil_r.
Qed.

Lemma first_brace_after (pre rest : pystr) (start : nat) :
  ~ In LBRACE pre -> first_brace (pre ++ LBRACE :: rest) start -> start = length pre.
Proof.
  intros Hpre [Hnth Hbefore].
  destruct (Nat.lt_trichotomy start (length pre)) as [Hlt | [Heq | Hgt]];
    [exfalso | assumption | exfalso].
  - rewrite nth_error_app1 in Hnth by assumption.
    apply Hpre. eapply nth_error_In, Hnth.
  - apply Hbefore. rewrite firstn_app. apply in_or_app. right.
    replace (start - length pre)%nat with (S (start - length pre - 1)) by lia.
    now left.
Qed.

Section ExtractionMore.
Context {L : PyLib}.

(** The ways the function returns, with the chosen span named. *)
Lemma extract_json_span (text : pystr) :
  exists v, _extract_json_from_text text = Ok v /\
    ((~ In LBRACE text /\ v = JObj []) \/
     (exists start, first_brace text start /\
        ((exists i, first_balanced text start i /\ v = parsed_span text start i) \/
         (never_balanced text start /\ v = JObj [])))).
Proof.
  unfold _extract_json_from_text.
  destruct (find_first LBRACE text) as [[Hf Hn] | [n [Hf [Hnth Hn]]]]; rewrite Hf.
  - exists (JObj []). split; [reflexivity|]. left. now split.
  - replace (Z.of_nat n =? -1)%Z with false by (symmetry; apply Z.eqb_neq; lia).
    rewrite Nat2Z.id.
    assert (n < length text)%nat by (apply nth_error_Some; congruence).
    destruct (@scan_braces_first_balanced _ text n Hnth (length text - n) n 0%Z)
      as [v [Hv Hcase]]; try lia.
    + now rewrite slice_empty.
    + exists v. split; [assumption|]. right. exists n. split; [now split | exact Hcase].
Qed.

(** X6: what stands before the first opening brace and what stands after
    the first balanced span does not count: when [span] begins with an
    opening brace and its braces balance at its last character and not
    before, the text [pre ++ span ++ post], with no opening brace in [pre],
    gives what the decoder makes of [span], and the empty mapping when the
    decoder raises on [span]; a later object in [post] is never tried. *)
Theorem extract_json_ignores_surroundings (pre span post : pystr)
  (Hpre : ~ In LBRACE pre)
  (Hopen : nth_error span 0 = Some LBRACE)
  (Hspan : first_balanced span 0 (length span - 1)) :
  _extract_json_from_text (pre ++ span ++ post) =
  Ok (match json_loads span with
      | Some v => v
      | None => JObj []
      end).
Proof.
  destruct span as [|c rest]; [discriminate|]. injection Hopen as ->.
  set (span := LBRACE :: rest) in *.
  assert (Hlen : (length span - 1 < length span)%nat) by (cbn; lia).
  assert (Hin : forall j, (j < length span)%nat ->
            slice (pre ++ span ++ post) (length pre) (length pre + j + 1) =
            slice span 0 (j + 1)).
  { intros j Hj. rewrite <- Nat.add_assoc. apply slice_inside. lia. }
  destruct Hspan as [_ [Hzero Hmin]].
  destruct (extract_json_span (pre ++ span ++ post))
    as [v [Hv [[Hno _] | [start [Hfirst Hcase]]]]].
  - exfalso. apply Hno. apply in_or_app. right. now left.
  - rewrite Hv. f_equal.
    assert (start = length pre) as ->
      by exact (@first_brace_after pre (rest ++ post) start Hpre Hfirst).
    destruct Hcase as [[i [[Hi [Hbal Hbefore]] ->]] | [Hnever _]].
    + assert (i = length pre + (length span - 1))%nat as ->.
      { destruct (Nat.lt_trichotomy i (length pre + (length span - 1)))
          as [Hlt | [Heq | Hgt]]; [exfalso | assumption | exfalso].
        - apply (Hmin (i - length pre)%nat); [lia|].
          rewrite <- Hin by lia.
          now replace (length pre + (i - length pre))%nat with i by lia.
        - apply (Hbefore (length pre + (length span - 1))%nat); [lia|].
          now rewrite Hin by lia. }
      unfold parsed_span. rewrite Hin by lia.
      unfold slice. replace (length span - 1 + 1 - 0)%nat with (length span) by lia.
      cbn [skipn]. now rewrite firstn_all.
    + exfalso. apply (Hnever (length pre + (length span - 1))%nat).
      * rewrite !length_app. lia.
      * now rewrite Hin by lia.
Qed.

(** X7: a text without any closing brace, such as a response cut short,
    gives the empty mapping, whatever the decoder. *)
Theorem extract_json_no_closing_brace (text : pystr)
  (Hno : ~ In RBRACE text) :
  _extract_json_from_text text = Ok (JObj []).
Proof.
  destruct (extract_json_span text)
    as [v [Hv [[_ ->] | [start [[Hnth _] [[i [[Hi [Hbal _]] _]] | [_ ->]]]]]]];
    try exact Hv.
  exfalso. unfold balance in Hbal.
  assert (Hr : count_occ N.eq_dec (slice text start (i + 1)) RBRACE = 0%nat).
  { apply count_occ_not_In. intros H. apply Hno. eapply In_slice_In, H. }
  rewrite Hr in Hbal.
  destruct (skipn_nth_error _ _ Hnth) as [rest Hrest].
  unfold slice in Hbal. rewrite Hrest in Hbal.
  replace (i + 1 - start)%nat with (S (i - start)) in Hbal by lia.
  cbn [firstn count_occ] in Hbal.
  destruct (N.eq_dec LBRACE LBRACE); [|congruence]. lia.
Qed.

End ExtractionMore.

(** ** Further properties of the review and the annotator *)

Lemma followed_by_yellow_refl (p : paragraph) : followed_by_yellow p p.
Proof. exists []. split; [now rewrite app_nil_r | constructor]. Qed.

Lemma followed_by_yellow_trans (p q r : paragraph) :
  followed_by_yellow p q -> followed_by_yellow q r -> followed_by_yellow p r.
Proof.
  intros [a1 [-> H1]] [a2 [-> H2]]. exists (a1 ++ a2).
  split; [now rewrite app_assoc | now apply Forall_app].
Qed.

Lemma Forall2_followed_refl (ps : list paragraph) : Forall2 followed_by_yellow ps ps.
Proof. induction ps; constructor; [apply followed_by_yellow_refl | assumption]. Qed.

Lemma Forall2_followed_trans (ps qs rs : list paragraph) :
  Forall2 followed_by_yellow ps qs -> Forall2 followed_by_yellow qs rs ->
  Forall2 followed_by_yellow ps rs.
Proof.
  intros H. revert rs. induction H as [|p q ps qs Hpq _ IH]; intros rs Hr.
  - inversion Hr. constructor.
  - inversion Hr as [|? r ? rs' Hqr Hrest]; subst. constructor.
    + eapply followed_by_yellow_trans; eassumption.
    + now apply IH.
Qed.

Lemma yellow_paragraphs_followed (ps qs : list paragraph) :
  Forall (fun p => p <> [] /\ Forall yellow p) ps ->
  Forall2 followed_by_yellow ps qs ->
  Forall (fun p => p <> [] /\ Forall yellow p) qs.
Proof.
  intros Hps H. induction H as [|p q ps qs [a [-> Ha]] _ IH]; [constructor|].
  inversion Hps as [|? ? [Hne Hy] Hrest]; subst. constructor; [|now apply IH].
  split; [destruct p; [congruence | discriminate] | now apply Forall_app].
Qed.

Lemma only_yellow_added_refl (ps : list paragraph) : only_yellow_added ps ps.
Proof.
  exists ps, []. split; [now rewrite app_nil_r|].
  split; [apply Forall2_followed_refl | constructor].
Qed.

Lemma only_yellow_added_trans (ps qs rs : list paragraph) :
  only_yellow_added ps qs -> only_yellow_added qs rs -> only_yellow_added ps rs.
Proof.
  intros [k1 [a1 [-> [H1 Ha1]]]] [k2 [a2 [-> [H2 Ha2]]]].
  apply Forall2_app_inv_l in H2 as [k21 [k22 [H21 [H22 ->]]]].
  exists k21, (k22 ++ a2). split; [now rewrite app_assoc|]. split.
  - eapply Forall2_followed_trans; eassumption.
  - apply Forall_app. split; [|assumption].
    exact (yellow_paragraphs_followed Ha1 H22).
Qed.

Lemma total_runs_app (ps qs : list paragraph) :
  total_runs (ps ++ qs) = (total_runs ps + total_runs qs)%nat.
Proof. unfold total_runs. now rewrite concat_app, length_app. Qed.

Lemma total_runs_cons (p : paragraph) (ps : list paragraph) :
  total_runs (p :: ps) = (length p + total_runs ps)%nat.
Proof. unfold total_runs. cbn [concat]. now rewrite length_app. Qed.

Section AnnotatorMore.
Context {L : PyLib} {C : Collaborators}.

Lemma total_runs_one_more (before after : list paragraph) (para : paragraph) (r : run) :
  total_runs (before ++ (para ++ [r]) :: after) =
  (total_runs (before ++ para :: after) + 1)%nat.
Proof.
  rewrite !total_runs_app, !total_runs_cons, length_app. cbn [length]. lia.
Qed.

Lemma place_issue_counts (d d' : docx) (issue : json) :
  place_issue d issue = Ok d' ->
  tables d' = tables d /\
  total_runs (paragraphs d') = (total_runs (paragraphs d) + 1)%nat /\
  (length (paragraphs d') <= length (paragraphs d) + 1)%nat.
Proof.
  intros H.
  destruct (place_issue_inv _ _ H)
    as [snippet [_ [[stored [_ ->]] | [before [para [after [stored [Hp [_ ->]]]]]]]]];
    cbn [paragraphs tables].
  - rewrite total_runs_app, length_app. cbn. repeat split; lia.
  - rewrite Hp, total_runs_one_more, !length_app. cbn [length]. repeat split; lia.
Qed.

Lemma for_each_place_issue_counts (items : list json) (d d' : docx) :
  for_each place_issue items d = Ok d' ->
  tables d' = tables d /\
  total_runs (paragraphs d') = (total_runs (paragraphs d) + length items)%nat /\
  (length (paragraphs d') <= length (paragraphs d) + length items)%nat.
Proof.
  revert d; induction items as [|issue items IH]; intros d H; simpl in H.
  - injection H as <-. cbn [length]. repeat split; lia.
  - apply bind_Ok in H as [d1 [H1 H2]].
    apply place_issue_counts in H1 as [Ht1 [Hr1 Hl1]].
    apply IH in H2 as [Ht2 [Hr2 Hl2]]. cbn [length].
    repeat split; [congruence | lia | lia].
Qed.

(** X9: the annotator leaves the tables alone and adds exactly one run for
    each issue of the review: the document that is saved has as many runs
    more than the one that was read as the review has issues, and at most
    that many paragraphs more. *)
Theorem annotate_adds_one_run_per_issue
  (file_bytes out : bytes) (doc : docx) (json_review : json) (items : list json)
  (Hdoc : Document file_bytes = Ok doc)
  (Hissues : review_issues json_review = Ok items)
  (Hout : annotate_docx_inline file_bytes json_review = Ok out) :
  exists doc',
    out = docx_save doc' /\
    tables doc' = tables doc /\
    total_runs (paragraphs doc') = (total_runs (paragraphs doc) + length items)%nat /\
    (length (paragraphs doc') <= length (paragraphs doc) + length items)%nat.
Proof.
  unfold annotate_docx_inline, annotate_document in Hout.
  rewrite Hdoc, Hissues in Hout. cbn [bind] in Hout.
  apply bind_Ok in Hout as [doc' [Hd Hout]]. injection Hout as <-.
  exists doc'. split; [reflexivity|]. now apply for_each_place_issue_counts.
Qed.

Lemma place_issue_yellow (d d' : docx) (issue : json) :
  place_issue d issue = Ok d' -> only_yellow_added (paragraphs d) (paragraphs d').
Proof.
  intros H.
  destruct (place_issue_inv _ _ H)
    as [snippet [_ [[stored [_ ->]] | [before [para [after [stored [Hp [_ ->]]]]]]]]];
    cbn [paragraphs].
  - eexists (paragraphs d), _. split; [reflexivity|].
    split; [apply Forall2_followed_refl|]. repeat constructor. discriminate.
  - rewrite Hp. eexists _, []. split; [now rewrite app_nil_r|]. split; [|constructor].
    apply Forall2_extended_refl_in; [apply followed_by_yellow_refl|].
    eexists. split; [reflexivity|]. repeat constructor.
Qed.

Lemma for_each_place_issue_yellow (items : list json) (d d' : docx) :
  for_each place_issue items d = Ok d' ->
  only_yellow_added (paragraphs d) (paragraphs d').
Proof.
  revert d; induction items as [|issue items IH]; intros d H; simpl in H.
  - injection H as <-. apply only_yellow_added_refl.
  - apply bind_Ok in H as [d1 [H1 H2]].
    eapply only_yellow_added_trans; [eapply place_issue_yellow; eassumption | now apply IH].
Qed.

(** X10: the annotator never edits or removes a run: in the document it
    saves, each paragraph of the input is there with its runs unchanged and
    in order, followed only by runs highlighted in yellow, and every
    paragraph after those is not empty and made of yellow runs only. *)
Theorem annotate_only_adds_yellow_runs
  (file_bytes out : bytes) (json_review : json)
  (Hout : annotate_docx_inline file_bytes json_review = Ok out) :
  exists doc doc',
    Document file_bytes = Ok doc /\ out = docx_save doc' /\
    only_yellow_added (paragraphs doc) (paragraphs doc').
Proof.
  unfold annotate_docx_inline, annotate_document in Hout.
  apply bind_Ok in Hout as [doc [Hdoc H]].
  apply bind_Ok in H as [doc' [H Hsave]].
  apply bind_Ok in H as [items [_ H]].
  exists doc, doc'. split; [assumption | split; [now injection Hsave|]].
  eapply for_each_place_issue_yellow; eassumption.
Qed.

(** X11: the issues are not placed independently of each other: when the
    first issue gets a new last paragraph, a second issue whose snippet
    matches no paragraph of the document but occurs in the lower-cased
    remark of the first one, as the new paragraph reads it, is put at the
    end of that new paragraph; both remarks hold only characters that can be
    put into a run, and a carriage return in them reads back as a line
    feed. *)
Theorem annotate_second_issue_on_first_remark
  (file_bytes : bytes) (doc : docx) (json_review : json) (i1 i2 : Issue)
  (Hdoc : Document file_bytes = Ok doc)
  (Hissues : review_issues json_review = Ok [issue_json i1; issue_json i2])
  (Hfirst : snippet_of i1 = [] \/ Forall (unmatched (snippet_of i1)) (paragraphs doc))
  (Hsnippet : snippet_of i2 <> [])
  (Hsecond : Forall (unmatched (snippet_of i2)) (paragraphs doc))
  (Hstore1 : forallb insertable
               (lit "[Suggestion: " ++ text_of (suggestion_field i1) ++ lit "]") = true)
  (Hstore2 : forallb insertable
               (lit " [Suggestion: " ++ text_of (suggestion_field i2) ++ lit "]") = true)
  (Hremark : occurs (snippet_of i2)
               (lower (lit "[Suggestion: " ++
                       map stored_char (text_of (suggestion_field i1)) ++ lit "]"))) :
  annotate_docx_inline file_bytes json_review =
  Ok (docx_save
        {| paragraphs :=
             paragraphs doc ++
             [[ {| run_text :=
                     lit "[Suggestion: " ++
                     map stored_char (text_of (suggestion_field i1)) ++ lit "]";
                   highlight_color := Some YELLOW |};
                {| run_text :=
                     lit " [Suggestion: " ++
                     map stored_char (text_of (suggestion_field i2)) ++ lit "]";
                   highlight_color := Some YELLOW |} ]];
           tables := tables doc |}).
Proof.
  unfold annotate_docx_inline, annotate_document. rewrite Hdoc, Hissues.
  cbn [bind for_each]. unfold place_issue at 1.
  rewrite issue_snippet_json, issue_comment_json. cbn [bind].
  rewrite (mark_first_none _ (unmatched_no_match Hfirst)). cbn [bind fst snd].
  unfold add_paragraph, remark at 1. rewrite (set_text_Ok _ Hstore1).
  cbn [bind paragraphs tables].
  unfold place_issue. rewrite issue_snippet_json, issue_comment_json. cbn [bind paragraphs].
  rewrite (mark_first_found (stored := map stored_char
             (lit " [Suggestion: " ++ text_of (suggestion_field i2) ++ lit "]"))
             (remark (text_of (suggestion_field i2))) []).
  - cbn [bind fst snd]. unfold highlighted. now rewrite !map_app.
  - apply unmatched_no_match. now right.
  - split; [assumption|]. unfold para_text. cbn [map concat highlighted run_text].
    now rewrite app_nil_r, !map_app.
  - exact (set_text_Ok _ Hstore2).
Qed.

End AnnotatorMore.

Section ReviewMore.
Context {L : PyLib} {C : Collaborators}.

(** X8: a response from which no issue list comes out, because the
    extracted value is empty or is a mapping without an 'issues' key, gives
    a review with no issues, and annotating with it saves the document as
    it was read. *)
Theorem review_without_issues_changes_nothing
  (qa : pystr -> result pystr) (doc_name doc_text resp : pystr) (parsed : json)
  (file_bytes : bytes) (doc : docx)
  (Hresp : qa (review_prompt doc_name doc_text) = Ok resp)
  (Hparsed : _extract_json_from_text resp = Ok parsed)
  (Hnone : truthy parsed = false \/
           (is_mapping parsed /\ has_field parsed (lit "issues") = false))
  (Hdoc : Document file_bytes = Ok doc) :
  exists review,
    run_rag_review qa doc_name doc_text = Ok review /\
    review_issues review = Ok [] /\
    annotate_docx_inline file_bytes review = Ok (docx_save doc).
Proof.
  unfold run_rag_review. rewrite Hresp. cbn [bind]. rewrite Hparsed. cbn [bind].
  assert (Hrev : forall review, review_issues review = Ok [] ->
            annotate_docx_inline file_bytes review = Ok (docx_save doc)).
  { intros review H. unfold annotate_docx_inline, annotate_document.
    now rewrite Hdoc, H. }
  destruct (truthy parsed) eqn:E; cbn [negb].
  - destruct Hnone as [Hf | [[items ->] Hno]]; [discriminate|].
    exists (JObj items). split; [reflexivity|].
    assert (Hr : review_issues (JObj items) = Ok []).
    { apply review_issues_absent. cbn [has_field] in Hno.
      destruct (assoc (lit "issues") items); [discriminate | reflexivity]. }
    split; [exact Hr | now apply Hrev].
  - exists (synthesized doc_name). split; [reflexivity|].
    split; [reflexivity | now apply Hrev].
Qed.

End ReviewMore.

(** ** Further properties of the audit and the run *)

Lemma NoDup_required :
  NoDup [ lit "Articles of Association";
          lit "Memorandum of Association";
          lit "Incorporation Application Form";
          lit "UBO Declaration Form";
          lit "Register of Members and Directors" ].
Proof.
  repeat (apply NoDup_cons;
          [cbn; intros H;
           repeat (destruct H as [H|H]; [discriminate H|]); exact H |]).
  apply NoDup_nil.
Qed.

Lemma missing_none_length (required detected : list pystr) :
  NoDup required -> missing_document_of required detected = None ->
  (length required <= length detected)%nat.
Proof.
  intros Hnd H. unfold missing_document_of in H.
  pose proof (missing_first required detected) as Hm.
  destruct (missing required detected); [|discriminate].
  apply NoDup_incl_length; [assumption|].
  intros x Hx. rewrite Forall_forall in Hm. now apply Hm.
Qed.

Lemma missing_nothing_detected (required : list pystr) : missing required [] = required.
Proof.
  unfold missing. induction required as [|r required IH]; [reflexivity|].
  cbn. now f_equal.
Qed.

(** X16: the labels reported missing are required labels that were not
    detected, in the order of the required list; with nothing detected all
    of them are missing; detecting more never makes a further label missing,
    so a complete set of documents stays complete when more are added. *)
Theorem missing_shrinks (required detected detected' : list pystr)
  (Hmore : incl detected detected') :
  (forall d, In d (missing required detected) <->
             In d required /\ ~ In d detected) /\
  missing required [] = required /\
  incl (missing required detected') (missing required detected) /\
  (missing_document_of required detected = None ->
   missing_document_of required detected' = None).
Proof.
  assert (Hin : forall det d, In d (missing required det) <->
                              In d required /\ ~ In d det).
  { intros det d. unfold missing. rewrite filter_In, negb_true_iff.
    split; intros [H1 H2]; (split; [assumption|]).
    - intros Hd. apply str_mem_In in Hd. congruence.
    - destruct (str_mem d det) eqn:E; [|reflexivity].
      apply str_mem_In in E. contradiction. }
  assert (Hsub : incl (missing required detected') (missing required detected)).
  { intros d Hd. apply Hin in Hd as [H1 H2]. apply Hin. split; [assumption|].
    intros Hd. apply H2. now apply Hmore. }
  split; [apply Hin | split; [|split; [exact Hsub|]]].
  - apply missing_nothing_detected.
  - unfold missing_document_of. intros H.
    destruct (missing required detected) as [|d rest]; [|discriminate].
    destruct (missing required detected') as [|d' rest']; [reflexivity|].
    destruct (Hsub d' (or_introl eq_refl)).
Qed.

Lemma for_each_raises {S X} (body : S -> X -> result S) (xs : list X) (x : X) (s : S) :
  In x xs -> (forall s', body s' x = Raise) -> for_each body xs s = Raise.
Proof.
  intros Hin Hx. revert s. induction xs as [|y xs IH]; intros s; [destruct Hin|].
  cbn [for_each]. destruct Hin as [->|Hin].
  - now rewrite Hx.
  - destruct (body s y); cbn [bind]; [now apply IH | reflexivity].
Qed.

Lemma In_numbered {X} (x : X) (xs : list X) (start : nat) :
  In x xs -> exists k, In (k, x) (combine (seq start (length xs)) xs).
Proof.
  revert start. induction xs as [|y xs IH]; intros start Hin; [destruct Hin|].
  cbn [length seq combine]. destruct Hin as [->|Hin].
  - exists start. now left.
  - destruct (IH (S start) Hin) as [k Hk]. exists k. now right.
Qed.

Lemma map_over_combine_l {X Y Z} (f : X -> Z) (xs : list X) (ys : list Y) :
  length xs = length ys -> map (fun p => f (fst p)) (combine xs ys) = map f xs.
Proof.
  revert ys. induction xs as [|x xs IH]; intros [|y ys] H; try discriminate; [reflexivity|].
  cbn. f_equal. apply IH. now injection H.
Qed.

Lemma map_over_combine_r {X Y Z} (f : Y -> Z) (xs : list X) (ys : list Y) :
  length xs = length ys -> map (fun p => f (snd p)) (combine xs ys) = map f ys.
Proof.
  revert ys. induction xs as [|x xs IH]; intros [|y ys] H; try discriminate; [reflexivity|].
  cbn. f_equal. apply IH. now injection H.
Qed.

Section RunMore.
Context {L : PyLib} {C : Collaborators}.

(** What a run that ends with a report has gone through. *)
Lemma run_review_done (pdf_files docx_files : list upload) (res : results) :
  run_review pdf_files docx_files = Ok (Some res) ->
  exists db rs,
    ingest_pdfs_to_faiss (map content pdf_files) = Ok db /\
    Forall2 (document_review db)
            (combine (seq 0 (length docx_files)) docx_files) rs /\
    res = {| output_json :=
               {| process := lit "Company Incorporation";
                  documents_uploaded := length docx_files;
                  required_documents := 5;
                  missing_document :=
                    missing_document_of
                      [ lit "Articles of Association";
                        lit "Memorandum of Association";
                        lit "Incorporation Application Form";
                        lit "UBO Declaration Form";
                        lit "Register of Members and Directors" ]
                      (map r_type rs);
                  issues_found := flattened rs |};
             results_reviewed_files :=
               map (fun p => (name (snd (fst p)), r_bytes (snd p)))
                   (combine (combine (seq 0 (length docx_files)) docx_files) rs) |}.
Proof.
  unfold run_review. intros H.
  destruct ((length pdf_files =? 0)%nat || (length docx_files =? 0)%nat);
    [discriminate|].
  apply bind_Ok in H as [db [Hdb H]].
  apply bind_Ok in H as [required_docs [Hreq H]].
  apply bind_Ok in H as [st [Hst H]].
  injection H as <-.
  apply for_each_review_one in Hst as [rs [Hrs ->]].
  cbn in Hreq. injection Hreq as <-.
  exists db, rs. repeat split; assumption.
Qed.

(** X12: nothing is run, and no report is made, exactly when there is no
    reference PDF or no candidate document. *)
Theorem run_review_needs_both_uploads (pdf_files docx_files : list upload) :
  run_review pdf_files docx_files = Ok None <->
  pdf_files = [] \/ docx_files = [].
Proof.
  unfold run_review. split.
  - intros H. destruct pdf_files as [|pf pdf_files]; [now left|].
    destruct docx_files as [|df docx_files]; [now right|].
    exfalso. cbn [length Nat.eqb orb] in H.
    destruct (ingest_pdfs_to_faiss (map content (pf :: pdf_files))); [|discriminate].
    cbn in H.
    match goal with
    | H : bind ?r _ = _ |- _ => destruct r; discriminate H
    end.
  - intros [-> | ->]; [reflexivity|].
    cbn [length Nat.eqb]. now rewrite orb_true_r.
Qed.

(** X13: the report of a run counts the candidate documents and the five
    required ones, and the run hands back one annotated file for each
    upload, in upload order, under the name of the upload. *)
Theorem run_review_one_file_per_upload
  (pdf_files docx_files : list upload) (res : results)
  (Hrun : run_review pdf_files docx_files = Ok (Some res)) :
  documents_uploaded (output_json res) = length docx_files /\
  required_documents (output_json res) = 5%nat /\
  map fst (results_reviewed_files res) = map name docx_files /\
  length (results_reviewed_files res) = length docx_files.
Proof.
  apply run_review_done in Hrun as [db [rs [_ [Hrs ->]]]].
  cbn [output_json documents_uploaded required_documents results_reviewed_files].
  pose proof (Forall2_length Hrs) as Hlen.
  assert (Hn : length (seq 0 (length docx_files)) = length docx_files)
    by apply length_seq.
  assert (Hnames : map fst
            (map (fun p => (name (snd (fst p)), r_bytes (snd p)))
                 (combine (combine (seq 0 (length docx_files)) docx_files) rs)) =
          map name docx_files).
  { rewrite map_map. cbn [fst].
    rewrite (map_over_combine_l (fun kd => name (snd kd)) _ rs Hlen).
    now apply map_over_combine_r. }
  repeat split; try assumption.
  rewrite <- (length_map fst), Hnames. apply length_map.
Qed.

(** X14: with fewer than five candidate documents the report always names
    a missing document. *)
Theorem run_review_few_uploads_miss_one
  (pdf_files docx_files : list upload) (res : results)
  (Hrun : run_review pdf_files docx_files = Ok (Some res))
  (Hfew : (length docx_files < 5)%nat) :
  missing_document (output_json res) <> None.
Proof.
  apply run_review_done in Hrun as [db [rs [_ [Hrs ->]]]].
  cbn [output_json missing_document]. intros Hnone.
  apply missing_none_length in Hnone; [|apply NoDup_required].
  apply Forall2_length in Hrs.
  rewrite length_combine, length_seq, Nat.min_id in Hrs.
  rewrite length_map in Hnone. cbn [length] in Hnone. lia.
Qed.

(** X15: one candidate document that cannot be read stops the whole run:
    there is no report and no annotated file, whatever the other uploads
    are. *)
Theorem run_review_one_unreadable_upload
  (pdf_files docx_files : list upload) (bad : upload)
  (Hpdf : pdf_files <> [])
  (Hin : In bad docx_files)
  (Hbad : Document (content bad) = Raise) :
  run_review pdf_files docx_files = Raise.
Proof.
  unfold run_review.
  destruct pdf_files as [|pf pdf_files]; [congruence|].
  destruct docx_files as [|df docx_files]; [destruct Hin|].
  cbn [length Nat.eqb orb].
  destruct (ingest_pdfs_to_faiss (map content (pf :: pdf_files))) as [db|];
    [|reflexivity].
  cbn [bind]. cbn [PROCESS ADGM_CHECKLISTS assoc].
  destruct (In_numbered bad (df :: docx_files) 0 Hin) as [k Hk].
  rewrite (for_each_raises (review_one db) _ (k, bad)); [reflexivity | exact Hk |].
  intros st. unfold review_one, extract_text_from_docx_bytes. now rewrite Hbad.
Qed.

Lemma classify_document_label (t : option pystr) :
  In (classify_document t) (lit "Unknown Document Type" :: map fst DOC_TYPE_KEYWORDS).
Proof.
  assert (H : forall text : pystr,
             In (classify_loop text DOC_TYPE_KEYWORDS)
                (UNKNOWN :: map fst DOC_TYPE_KEYWORDS)).
  { intros text.
    destruct (classify_loop_first text DOC_TYPE_KEYWORDS)
      as [[before [d [ks [after [Ht [_ [_ Hc]]]]]]] | [_ Hc]]; rewrite Hc.
    - right. rewrite Ht, map_app. apply in_or_app. right. now left.
    - now left. }
  destruct t as [text|]; [rewrite classify_document_loop|]; apply H.
Qed.

(** X17: every entry of the report's issue list is a mapping with exactly
    the keys document, section, issue, severity and suggestion, in that
    order, and its document is one of the five labels or "Unknown Document
    Type". *)
Theorem run_review_issue_entries
  (pdf_files docx_files : list upload) (res : results)
  (Hrun : run_review pdf_files docx_files = Ok (Some res)) :
  Forall (fun entry =>
            exists doc_type items,
              entry = JObj items /\
              map fst items = [ lit "document"; lit "section"; lit "issue";
                                lit "severity"; lit "suggestion" ] /\
              assoc (lit "document") items = Some (JStr doc_type) /\
              In doc_type (lit "Unknown Document Type" :: map fst DOC_TYPE_KEYWORDS))
         (issues_found (output_json res)).
Proof.
  apply run_review_done in Hrun as [db [rs [_ [Hrs ->]]]].
  cbn [output_json issues_found]. unfold flattened.
  apply Forall_concat, Forall_map.
  induction Hrs as [|kd r kds rs Hr _ IH]; constructor; [|exact IH].
  apply Forall_map, Forall_forall. intros i _.
  destruct Hr as [text [review_json [_ [Hty _]]]].
  exists (r_type r). eexists. split; [reflexivity|].
  split; [reflexivity | split; [reflexivity|]].
  rewrite Hty. apply classify_document_label.
Qed.

End RunMore.

(** ** Concrete runs for the further properties *)

Lemma extract_text_keeps_every_part_witness :
  exists text,
    extract_text_from_docx_bytes (L := Reference.lib) (C := Reference.collaborators [])
      Sample.two_sections = Ok text /\
    (forall p, In p (paragraphs Sample.two_sections_doc) ->
               Reference.strip (para_text p) <> [] ->
               occurs (Reference.strip (para_text p)) text) /\
    (forall table row cell,
       In table (tables Sample.two_sections_doc) -> In row table -> In cell row ->
       Reference.strip cell <> [] -> occurs (Reference.strip cell) text).
Proof.
  apply (@extract_text_keeps_every_part Reference.lib (Reference.collaborators [])
           Sample.two_sections Sample.two_sections_doc).
  reflexivity.
Defined.

Lemma extract_text_blank_document_witness :
  extract_text_from_docx_bytes (L := Reference.lib) (C := Reference.collaborators [])
    (Reference.to_bytes (lit "   ")) = Ok [] /\
  (text <- extract_text_from_docx_bytes (L := Reference.lib)
             (C := Reference.collaborators []) (Reference.to_bytes (lit "   ")) ;;
   Ok (classify_document (L := Reference.lib) (Some text))) =
    Ok (lit "Unknown Document Type").
Proof.
  apply (@extract_text_blank_document Reference.lib (Reference.collaborators [])
           (Reference.to_bytes (lit "   "))
           {| paragraphs := [Reference.plain (lit "   ")]; tables := [] |}).
  - reflexivity.
  - repeat constructor.
  - constructor.
Defined.

Lemma classify_document_embedded_witness :
  exists before keys after,
    DOC_TYPE_KEYWORDS =
      before ++ (classify_document (L := Reference.lib) (Some (lit "memorandum")), keys)
      :: after /\
    In (classify_document (L := Reference.lib)
          (Some (lit "Articles and " ++ lit "memorandum" ++ lit " of the company")))
       (map fst before ++ [classify_document (L := Reference.lib) (Some (lit "memorandum"))]) /\
    classify_document (L := Reference.lib)
      (Some (lit "Articles and " ++ lit "memorandum" ++ lit " of the company")) <>
    lit "Unknown Document Type".
Proof.
  apply (@classify_document_embedded Reference.lib
           (lit "Articles and ") (lit "memorandum") (lit " of the company")).
  - reflexivity.
  - vm_compute. discriminate.
Defined.

Lemma extract_json_ignores_surroundings_witness :
  _extract_json_from_text (L := Reference.lib)
    (lit "Review: " ++ qlit "{'issues': []}" ++ qlit " or {'issues': [1]}") =
  Ok (match Reference.loads (qlit "{'issues': []}") with
      | Some v => v
      | None => JObj []
      end).
Proof.
  apply (@extract_json_ignores_surroundings Reference.lib
           (lit "Review: ") (qlit "{'issues': []}") (qlit " or {'issues': [1]}")).
  - vm_compute. intros H. repeat (destruct H as [H|H]; [discriminate H|]). exact H.
  - reflexivity.
  - split; [vm_compute; split; [apply le_0_n | apply le_n] |].
    split; [reflexivity|].
    intros j [_ Hj].
    do 13 (destruct j as [|j]; [vm_compute; discriminate|]).
    vm_compute in Hj. do 13 apply le_S_n in Hj. inversion Hj.
Defined.

Lemma extract_json_no_closing_brace_witness :
  _extract_json_from_text (L := Reference.lib) (qlit "{'document': 'X', 'issues': [") =
  Ok (JObj []).
Proof.
  apply (@extract_json_no_closing_brace Reference.lib).
  vm_compute. intros H. repeat (destruct H as [H|H]; [discriminate H|]). exact H.
Defined.

Lemma review_without_issues_changes_nothing_witness :
  exists review,
    run_rag_review (L := Reference.lib) (fun _ => Ok (lit "I found no problem."))
      (lit "UBO Declaration Form") (lit "ubo declaration") = Ok review /\
    review_issues review = Ok [] /\
    annotate_docx_inline (L := Reference.lib) (C := Reference.collaborators [])
      Sample.two_sections review = Ok (Reference.write_document Sample.two_sections_doc).
Proof.
  apply (@review_without_issues_changes_nothing Reference.lib (Reference.collaborators [])
           (fun _ => Ok (lit "I found no problem."))
           (lit "UBO Declaration Form") (lit "ubo declaration")
           (lit "I found no problem.") (JObj [])
           Sample.two_sections Sample.two_sections_doc).
  - reflexivity.
  - reflexivity.
  - left. reflexivity.
  - reflexivity.
Defined.

Lemma annotate_adds_one_run_per_issue_witness :
  exists doc',
    Reference.to_bytes
      (lit "Section 1: Capital" ++ [NEWLINE] ++
       lit "Section 2: Directors [Suggestion: Add signature]" ++ [NEWLINE] ++
       lit "[Suggestion: Add signature]") = Reference.write_document doc' /\
    tables doc' = tables Sample.two_sections_doc /\
    total_runs (paragraphs doc') =
      (total_runs (paragraphs Sample.two_sections_doc) + 2)%nat /\
    (length (paragraphs doc') <= length (paragraphs Sample.two_sections_doc) + 2)%nat.
Proof.
  apply (@annotate_adds_one_run_per_issue Reference.lib (Reference.collaborators [])
           Sample.two_sections _ Sample.two_sections_doc
           (Sample.review_of [issue_json Sample.on_directors;
                              issue_json Sample.bare_suggestion])
           [issue_json Sample.on_directors; issue_json Sample.bare_suggestion]).
  - reflexivity.
  - reflexivity.
  - reflexivity.
Defined.

Lemma annotate_only_adds_yellow_runs_witness :
  exists doc doc',
    Reference.read_document Sample.two_sections = Ok doc /\
    Reference.to_bytes
      (lit "Section 1: Capital" ++ [NEWLINE] ++
       lit "Section 2: Directors [Suggestion: Add signature]" ++ [NEWLINE] ++
       lit "[Suggestion: Add signature]") = Reference.write_document doc' /\
    only_yellow_added (paragraphs doc) (paragraphs doc').
Proof.
  apply (@annotate_only_adds_yellow_runs Reference.lib (Reference.collaborators [])
           Sample.two_sections _
           (Sample.review_of [issue_json Sample.on_directors;
                              issue_json Sample.bare_suggestion])).
  reflexivity.
Defined.

Lemma annotate_second_issue_on_first_remark_witness :
  annotate_docx_inline (L := Reference.lib) (C := Reference.collaborators [])
    Sample.two_sections
    (Sample.review_of [issue_json Sample.on_shareholders; issue_json Sample.on_clause]) =
  Ok (Reference.write_document
        {| paragraphs :=
             paragraphs Sample.two_sections_doc ++
             [[ {| run_text :=
                     lit "[Suggestion: " ++ map stored_char (lit "Add clause") ++ lit "]";
                   highlight_color := Some YELLOW |};
                {| run_text :=
                     lit " [Suggestion: " ++ map stored_char (lit "Number it") ++ lit "]";
                   highlight_color := Some YELLOW |} ]];
           tables := [] |}).
Proof.
  apply (@annotate_second_issue_on_first_remark Reference.lib (Reference.collaborators [])
           Sample.two_sections Sample.two_sections_doc
           (Sample.review_of [issue_json Sample.on_shareholders; issue_json Sample.on_clause])
           Sample.on_shareholders Sample.on_clause).
  - reflexivity.
  - reflexivity.
  - right. repeat constructor; apply contains_false; vm_compute; reflexivity.
  - vm_compute. discriminate.
  - repeat constructor; apply contains_false; vm_compute; reflexivity.
  - vm_compute. reflexivity.
  - vm_compute. reflexivity.
  - apply contains_occurs. vm_compute. reflexivity.
Defined.

Lemma missing_shrinks_witness :
  let required := [lit "A"; lit "B"; lit "C"] in
  (forall d, In d (missing required [lit "A"]) <->
             In d required /\ ~ In d [lit "A"]) /\
  missing required [] = required /\
  incl (missing required [lit "C"; lit "A"]) (missing required [lit "A"]) /\
  (missing_document_of required [lit "A"] = None ->
   missing_document_of required [lit "C"; lit "A"] = None).
Proof.
  apply (@missing_shrinks [lit "A"; lit "B"; lit "C"] [lit "A"] [lit "C"; lit "A"]).
  intros x Hx. right. exact Hx.
Defined.

Lemma run_review_one_file_per_upload_witness :
  exists res,
    run_review (L := Reference.lib) (C := Reference.collaborators Sample.responses)
      [Sample.reference_pdf] [Sample.articles; Sample.memorandum] = Ok (Some res) /\
    documents_uploaded (output_json res) = 2%nat /\
    required_documents (output_json res) = 5%nat /\
    map fst (results_reviewed_files res) = [lit "aoa.docx"; lit "moa.docx"] /\
    length (results_reviewed_files res) = 2%nat.
Proof.
  eexists. split; [vm_compute; reflexivity|].
  apply (@run_review_one_file_per_upload Reference.lib
           (Reference.collaborators Sample.responses)
           [Sample.reference_pdf] [Sample.articles; Sample.memorandum]).
  vm_compute. reflexivity.
Defined.

Lemma run_review_few_uploads_miss_one_witness :
  exists res,
    run_review (L := Reference.lib) (C := Reference.collaborators Sample.responses)
      [Sample.reference_pdf] [Sample.articles; Sample.memorandum] = Ok (Some res) /\
    missing_document (output_json res) <> None.
Proof.
  eexists. split; [vm_compute; reflexivity|].
  apply (@run_review_few_uploads_miss_one Reference.lib
           (Reference.collaborators Sample.responses)
           [Sample.reference_pdf] [Sample.articles; Sample.memorandum]).
  - vm_compute. reflexivity.
  - vm_compute. repeat constructor.
Defined.

Lemma run_review_one_unreadable_upload_witness :
  run_review (L := Reference.lib) (C := Fussy.collaborators Sample.responses)
    [Sample.reference_pdf] [Sample.articles; Sample.empty_upload] = Raise.
Proof.
  apply (@run_review_one_unreadable_upload Reference.lib
           (Fussy.collaborators Sample.responses)
           [Sample.reference_pdf] [Sample.articles; Sample.empty_upload]
           Sample.empty_upload).
  - discriminate.
  - right. left. reflexivity.
  - reflexivity.
Defined.

Lemma run_review_issue_entries_witness :
  exists res,
    run_review (L := Reference.lib) (C := Reference.collaborators Sample.responses)
      [Sample.reference_pdf] [Sample.articles; Sample.memorandum] = Ok (Some res) /\
    Forall (fun entry =>
              exists doc_type items,
                entry = JObj items /\
                map fst items = [ lit "document"; lit "section"; lit "issue";
                                  lit "severity"; lit "suggestion" ] /\
                assoc (lit "document") items = Some (JStr doc_type) /\
                In doc_type (lit "Unknown Document Type" :: map fst DOC_TYPE_KEYWORDS))
           (issues_found (output_json res)).
Proof.
  eexists. split; [vm_compute; reflexivity|].
  apply (@run_review_issue_entries Reference.lib
           (Reference.collaborators Sample.responses)
           [Sample.reference_pdf] [Sample.articles; Sample.memorandum]).
  vm_compute. reflexivity.
Defined.
